(** * TapEventPlugin: the tap-gesture recogniser of
      [src/browser/eventPlugins/TapEventPlugin.js]

    The plugin is a module-level state machine: every raw event the event hub
    hands to [extractEvents] reads and updates four module variables
    ([startCoords], [Time], [lastStartTouchEvent], [lastEndTouchEvent]) and
    returns [null], one synthetic event, or an array of synthetic events.
    The embedding passes that state explicitly.

    Numbers.  Page coordinates, scroll offsets and timestamps are integers
    ([Z]).  A property that is missing from an object reads as [undefined];
    the plugin only ever feeds such a value to arithmetic, a comparison or a
    truthiness test, where [undefined] and [NaN] behave alike, so one value
    [NaN] stands for both.  The Euclidean distance
    [Math.pow(dx^2 + dy^2, 0.5)] is kept as its radicand, and the two
    comparisons the plugin makes on it are decided on squares; section
    [DistanceReal] shows that this is the comparison of the real square
    root. *)

From Stdlib Require Import ZArith Lia Reals Lra.
From stdpp Require Import gmap strings.

Local Open Scope Z_scope.

(** ** JavaScript values used by the plugin *)

Inductive number : Type :=
  | Num (z : Z)
  | NaN.

(** A variable that holds [null] or a number: [None] is [null]. *)
Abbreviation nullable := (option number).

(** [ToNumber]: [null] converts to [0]. *)
Definition ToNumber (v : nullable) : number :=
  match v with
  | None => Num 0
  | Some n => n
  end.

(** [ToBoolean]: [null], [0] and [NaN] are falsy. *)
Definition ToBoolean (v : nullable) : bool :=
  match v with
  | Some (Num z) => negb (z =? 0)
  | _ => false
  end.

Definition num_add (a b : number) : number :=
  match a, b with
  | Num p, Num q => Num (p + q)
  | _, _ => NaN
  end.

Definition num_sub (a b : number) : number :=
  match a, b with
  | Num p, Num q => Num (p - q)
  | _, _ => NaN
  end.

(** [Math.pow(a, 2)] *)
Definition pow2 (a : number) : number :=
  match a with
  | Num p => Num (p * p)
  | NaN => NaN
  end.

(** [obj[key]] on an object whose properties are numbers. *)
Definition get (obj : gmap string Z) (key : string) : number :=
  match obj !! key with
  | Some v => Num v
  | None => NaN
  end.

(** [Math.pow(radicand, 0.5)], kept symbolic. *)
Record distance : Type := Sqrt { radicand : number }.

(** [d >= t]; every comparison with [NaN] is false. *)
Definition distance_geb (d : distance) (t : Z) : bool :=
  match radicand d with
  | Num q => (0 <=? q) && ((t <=? 0) || (t * t <=? q))
  | NaN => false
  end.

(** [d < t] *)
Definition distance_ltb (d : distance) (t : Z) : bool :=
  match radicand d with
  | Num q => (0 <=? q) && (0 <? t) && (q <? t * t)
  | NaN => false
  end.

(** ** Collaborators that are [require]d by the plugin *)

(** Modelled from the spec: [EventConstants] is not among the sources.  The
    raw lifecycle kinds are the seven the plugin names in its dependency
    lists; [topOther] is any other kind the hub passes to every plugin. *)
Inductive topLevelType : Type :=
  | topMouseDown
  | topMouseMove
  | topMouseUp
  | topTouchCancel
  | topTouchEnd
  | topTouchStart
  | topTouchMove
  | topOther (name : string).

(** A native browser event: its [timeStamp], its own numeric properties
    ([pageX], [clientX], ...) and the touch points it carries. *)
Record NativeEvent : Type := mkNativeEvent {
  timeStamp : Z;
  props : gmap string Z;
  touches : list (gmap string Z);
  changedTouches : list (gmap string Z)
}.

(** [EventPluginUtils]: the host's classification of raw kinds and its
    touch-events switch. *)
Class EventPluginUtils : Type := {
  isStartish : topLevelType -> bool;
  isEndish : topLevelType -> bool;
  useTouchEvents : bool
}.

(** [TouchEventUtils.extractSingleTouch]: the touch point of the event, or a
    falsy value ([None]). *)
Class TouchEventUtils : Type := {
  extractSingleTouch : NativeEvent -> option (gmap string Z)
}.

(** ** Module constants *)

Definition tapMoveThreshold : Z := 10.
Definition ignoreMouseThreshold : Z := 350.
Definition tapTimeThreshold : Z := 2000.

Record AxisDesc : Type := mkAxis {
  page : string;
  client : string;
  envScroll : string
}.

Module Axis.
Definition x : AxisDesc :=
  {| page := "pageX"; client := "clientX"; envScroll := "currentPageScrollLeft" |}.
Definition y : AxisDesc :=
  {| page := "pageY"; client := "clientY"; envScroll := "currentPageScrollTop" |}.
End Axis.

(** ** Module state *)

Record Coords : Type := mkCoords {
  x : nullable;
  y : nullable
}.

Record Clock : Type := mkClock {
  start : Z;
  end_ : Z
}.

Record State : Type := mkState {
  startCoords : Coords;
  lastStartTouchEvent : option Z;
  lastEndTouchEvent : option Z;
  Time : Clock
}.

(** The values the module variables are initialised with. *)
Definition initial : State :=
  {| startCoords := {| x := None; y := None |};
     lastStartTouchEvent := None;
     lastEndTouchEvent := None;
     Time := {| start := 0; end_ := 0 |} |}.

Definition set_startCoords (c : Coords) (s : State) : State :=
  {| startCoords := c;
     lastStartTouchEvent := lastStartTouchEvent s;
     lastEndTouchEvent := lastEndTouchEvent s;
     Time := Time s |}.

Definition set_lastStartTouchEvent (t : Z) (s : State) : State :=
  {| startCoords := startCoords s;
     lastStartTouchEvent := Some t;
     lastEndTouchEvent := lastEndTouchEvent s;
     Time := Time s |}.

Definition set_lastEndTouchEvent (t : Z) (s : State) : State :=
  {| startCoords := startCoords s;
     lastStartTouchEvent := lastStartTouchEvent s;
     lastEndTouchEvent := Some t;
     Time := Time s |}.

Definition set_Time (c : Clock) (s : State) : State :=
  {| startCoords := startCoords s;
     lastStartTouchEvent := lastStartTouchEvent s;
     lastEndTouchEvent := lastEndTouchEvent s;
     Time := c |}.

(** ** Synthetic events and event types *)

Inductive EventTypeKey : Type :=
  | touchTap
  | touchTapStart
  | touchTapEnd.

(** [SyntheticUIEvent.getPooled(dispatchConfig, dispatchMarker, nativeEvent)] *)
Record SyntheticUIEvent : Type := getPooled {
  dispatchConfig : EventTypeKey;
  dispatchMarker : string;
  nativeEvent : NativeEvent
}.

(** What [extractEvents] returns: [null], one event, or an array. *)
Inductive Accumulation : Type :=
  | Null
  | Single (event : SyntheticUIEvent)
  | Array (events : list SyntheticUIEvent).

Record PhasedRegistrationNames : Type := mkNames {
  bubbled : string;
  captured : string
}.

(** [dependencies] is [None] while the variable is still [undefined]. *)
Record EventType : Type := mkEventType {
  phasedRegistrationNames : PhasedRegistrationNames;
  dependencies_of : option (list topLevelType)
}.

Definition mouseDependencies : list topLevelType :=
  [topMouseDown; topMouseMove; topMouseUp].

Definition touchDependencies : list topLevelType :=
  [topTouchCancel; topTouchEnd; topTouchStart; topTouchMove].

(** ['ontouchstart' in window]; [window] is given by its property names. *)
Definition isTouchDevice (window : gset string) : bool :=
  bool_decide ("ontouchstart" ∈ window).

Section Plugin.
Context `{EPU : EventPluginUtils} `{TEU : TouchEventUtils}.

(** [ViewportMetrics] is read at each call; it is an argument. *)
Definition getAxisCoordOfEvent
    (ViewportMetrics : gmap string Z) (axis : AxisDesc) (e : NativeEvent) : number :=
  match extractSingleTouch e with
  | Some singleTouch => get singleTouch (page axis)
  | None =>
      match props e !! page axis with
      | Some v => Num v
      | None => num_add (get (props e) (client axis))
                        (get ViewportMetrics (envScroll axis))
      end
  end.

Definition getDistance
    (ViewportMetrics : gmap string Z) (coords : Coords) (e : NativeEvent) : distance :=
  let pageX := getAxisCoordOfEvent ViewportMetrics Axis.x e in
  let pageY := getAxisCoordOfEvent ViewportMetrics Axis.y e in
  Sqrt (num_add (pow2 (num_sub pageX (ToNumber (x coords))))
                (pow2 (num_sub pageY (ToNumber (y coords))))).

Definition getTime (e : NativeEvent) : Z := timeStamp e.

Definition getDuration (s : State) : Z := end_ (Time s) - start (Time s).

(** The module-level selection of [dependencies]. *)
Definition dependencies (window : gset string) : option (list topLevelType) :=
  if useTouchEvents then
    if isTouchDevice window then Some touchDependencies
    else Some mouseDependencies
  else None.

Definition eventTypes (window : gset string) (k : EventTypeKey) : EventType :=
  match k with
  | touchTap =>
      {| phasedRegistrationNames := {| bubbled := "onTap"; captured := "onTapCapture" |};
         dependencies_of := dependencies window |}
  | touchTapStart =>
      {| phasedRegistrationNames :=
           {| bubbled := "onTapStart"; captured := "onTapStartCapture" |};
         dependencies_of := dependencies window |}
  | touchTapEnd =>
      {| phasedRegistrationNames :=
           {| bubbled := "onTapEnd"; captured := "onTapEndCapture" |};
         dependencies_of := dependencies window |}
  end.

(** [last && (timeStamp - last) < ignoreMouseThreshold] *)
Definition ignored (last : option Z) (e : NativeEvent) : bool :=
  match last with
  | Some t => negb (t =? 0) && (timeStamp e - t <? ignoreMouseThreshold)
  | None => false
  end.

(** Lines 169-179: the filter on repeated start-ish and end-ish events.
    [None] is the early [return null]. *)
Definition filter_repeated
    (t : topLevelType) (e : NativeEvent) (s : State) : option State :=
  if isStartish t then
    if ignored (lastStartTouchEvent s) e then None
    else Some (set_lastStartTouchEvent (timeStamp e) s)
  else if isEndish t then
    if ignored (lastEndTouchEvent s) e then None
    else Some (set_lastEndTouchEvent (timeStamp e) s)
  else Some s.

Definition cleared : Coords := {| x := Some (Num 0); y := Some (Num 0) |}.

(** [extractEvents].  [topLevelTarget] is not used by the plugin and
    [EventPropagators.accumulateTwoPhaseDispatches] only annotates the
    events it is given; both are left out. *)
Definition extractEvents
    (ViewportMetrics : gmap string Z)
    (t : topLevelType) (topLevelTargetID : string) (e : NativeEvent)
    (s : State) : Accumulation * State :=
  match filter_repeated t e s with
  | None => (Null, s)
  | Some s =>
      if negb (isStartish t) && negb (isEndish t) then
        if ToBoolean (x (startCoords s)) && ToBoolean (y (startCoords s)) then
          if distance_geb (getDistance ViewportMetrics (startCoords s) e) tapMoveThreshold
          then (Single (getPooled touchTapEnd topLevelTargetID e),
                set_startCoords cleared s)
          else (Null, s)
        else (Null, s)
      else if isStartish t then
        let s := set_Time {| start := getTime e; end_ := end_ (Time s) |} s in
        let s :=
          set_startCoords
            {| x := Some (getAxisCoordOfEvent ViewportMetrics Axis.x e);
               y := Some (getAxisCoordOfEvent ViewportMetrics Axis.y e) |} s in
        (Single (getPooled touchTapStart topLevelTargetID e), s)
      else
        let '(event, s) :=
          if isEndish t then
            let s := set_Time {| start := start (Time s); end_ := getTime e |} s in
            if tapTimeThreshold <? getDuration s then
              (Array [getPooled touchTapEnd topLevelTargetID e], s)
            else if distance_ltb (getDistance ViewportMetrics (startCoords s) e)
                                 tapMoveThreshold
            then (Array [getPooled touchTapEnd topLevelTargetID e;
                         getPooled touchTap topLevelTargetID e], s)
            else (Array [getPooled touchTapEnd topLevelTargetID e], s)
          else (Null, s) in
        (event, set_Time {| start := 0; end_ := 0 |} (set_startCoords cleared s))
  end.

(** The state a start-ish event leaves behind once it is accepted. *)
Definition armed_by (vm : gmap string Z) (e : NativeEvent) (s : State) : State :=
  {| startCoords :=
       {| x := Some (getAxisCoordOfEvent vm Axis.x e);
          y := Some (getAxisCoordOfEvent vm Axis.y e) |};
     lastStartTouchEvent := Some (timeStamp e);
     lastEndTouchEvent := lastEndTouchEvent s;
     Time := {| start := timeStamp e; end_ := end_ (Time s) |} |}.

(** The state an end-ish event leaves behind once it is accepted. *)
Definition resolved_by (e : NativeEvent) (s : State) : State :=
  {| startCoords := cleared;
     lastStartTouchEvent := lastStartTouchEvent s;
     lastEndTouchEvent := Some (timeStamp e);
     Time := {| start := 0; end_ := 0 |} |}.

(** The events an accepted end-ish event returns. *)
Definition end_events
    (vm : gmap string Z) (id : string) (e : NativeEvent) (s : State)
    : list SyntheticUIEvent :=
  if tapTimeThreshold <? timeStamp e - start (Time s) then [getPooled touchTapEnd id e]
  else if distance_ltb (getDistance vm (startCoords s) e) tapMoveThreshold
       then [getPooled touchTapEnd id e; getPooled touchTap id e]
       else [getPooled touchTapEnd id e].

(** The events an accepted end-ish event would return if the decision were
    taken against the origin (0, 0) and the start time 0. *)
Definition end_events_from_cleared
    (vm : gmap string Z) (id : string) (e : NativeEvent) : list SyntheticUIEvent :=
  if tapTimeThreshold <? timeStamp e - 0 then [getPooled touchTapEnd id e]
  else if distance_ltb (getDistance vm cleared e) tapMoveThreshold
       then [getPooled touchTapEnd id e; getPooled touchTap id e]
       else [getPooled touchTapEnd id e].

End Plugin.

(** A call of [extractEvents] as the event hub makes it, with the scroll
    offsets [ViewportMetrics] holds at that moment. *)
Record Call : Type := mkCall {
  viewport : gmap string Z;
  kind : topLevelType;
  targetID : string;
  native : NativeEvent
}.

(** The hub delivers raw events one at a time; the module state is threaded
    through the calls and the accumulations are collected in order. *)
Fixpoint dispatch `{EventPluginUtils} `{TouchEventUtils}
    (calls : list Call) (s : State) : list Accumulation * State :=
  match calls with
  | [] => ([], s)
  | c :: calls =>
      let '(r, s) := extractEvents (viewport c) (kind c) (targetID c) (native c) s in
      let '(rs, s) := dispatch calls s in
      (r :: rs, s)
  end.

Definition is_move `{EventPluginUtils} (c : Call) : Prop :=
  isStartish (kind c) = false /\ isEndish (kind c) = false.

(** ** The module state between two calls *)

(** What every call keeps true of the module variables: [Time.end] is back
    at [0]; [Time.start] is [0] or the last accepted start-ish time stamp;
    and the origin holds a [null] only while no variable has been written. *)
Definition between_calls (s : State) : Prop :=
  end_ (Time s) = 0 /\
  (start (Time s) = 0 \/ lastStartTouchEvent s = Some (start (Time s))) /\
  (s = initial \/ (x (startCoords s) <> None /\ y (startCoords s) <> None)).

(** [n] calls that return nothing. *)
Definition nothing (n : nat) : list Accumulation := repeat Null n.

(** ** The distance as a real number *)

(** The value of [Math.pow(q, 0.5)]: [None] is [NaN]. *)
Definition real_distance (d : distance) : option R :=
  match radicand d with
  | Num q => if 0 <=? q then Some (sqrt (IZR q)) else None
  | NaN => None
  end.

Definition distance_lt (d : distance) (t : Z) : Prop :=
  exists r : R, real_distance d = Some r /\ (r < IZR t)%R.

Definition distance_ge (d : distance) (t : Z) : Prop :=
  exists r : R, real_distance d = Some r /\ (IZR t <= r)%R.

(** ** A browser host, for running the plugin on concrete events *)

(** Modelled from the spec: [EventPluginUtils] is not among the sources.
    Start-class kinds are the pointer and touch "down" kinds, end-class kinds
    the "up" and "cancel" kinds; everything else is neither. *)
Definition browserUtils (touchEvents : bool) : EventPluginUtils :=
  {| isStartish t :=
       match t with
       | topMouseDown | topTouchStart => true
       | _ => false
       end;
     isEndish t :=
       match t with
       | topMouseUp | topTouchEnd | topTouchCancel => true
       | _ => false
       end;
     useTouchEvents := touchEvents |}.

(** Modelled from the spec: [TouchEventUtils] is not among the sources.  It
    returns the single active touch point of the event, if there is one. *)
Definition browserTouch : TouchEventUtils :=
  {| extractSingleTouch e :=
       match touches e with
       | [touch] => Some touch
       | _ => None
       end |}.

(** The browser host with touch events switched on. *)
Definition touchBrowser : EventPluginUtils := browserUtils true.

(** A mouse event at page position [(px, py)] with time stamp [ts]. *)
Definition mouseEvent (px py ts : Z) : NativeEvent :=
  {| timeStamp := ts;
     props := {[ "pageX" := px; "pageY" := py ]};
     touches := [];
     changedTouches := [] |}.

(** A touch event with one active touch point at [(px, py)]; the event
    itself has no coordinates. *)
Definition touchEvent (px py ts : Z) : NativeEvent :=
  {| timeStamp := ts;
     props := ∅;
     touches := [ {[ "pageX" := px; "pageY" := py ]} ];
     changedTouches := [] |}.

(** An event that only reports viewport-relative coordinates. *)
Definition clientEvent (cx cy ts : Z) : NativeEvent :=
  {| timeStamp := ts;
     props := {[ "clientX" := cx; "clientY" := cy ]};
     touches := [];
     changedTouches := [] |}.

(** An event that reports no position at all: no touch point in [touches]
    and no coordinate of its own. *)
Definition bareEvent (ts : Z) : NativeEvent :=
  {| timeStamp := ts; props := ∅; touches := []; changedTouches := [] |}.

Definition scrolled (left top : Z) : gmap string Z :=
  {[ "currentPageScrollLeft" := left; "currentPageScrollTop" := top ]}.

Definition tapStartEvent (id : string) (e : NativeEvent) : SyntheticUIEvent :=
  getPooled touchTapStart id e.
Definition tapEndEvent (id : string) (e : NativeEvent) : SyntheticUIEvent :=
  getPooled touchTapEnd id e.
Definition tapEvent (id : string) (e : NativeEvent) : SyntheticUIEvent :=
  getPooled touchTap id e.

(** * Properties *)

(** ** The comparisons on squares are the comparisons of the square root *)

Section DistanceReal.
Local Open Scope R_scope.

Lemma sqrt_IZR_lt (q t : Z) :
  (0 <= q)%Z -> sqrt (IZR q) < IZR t <-> (0 < t)%Z /\ (q < t * t)%Z.
Proof.
  intros Hq. pose proof (sqrt_pos (IZR q)) as Hs.
  assert (0 <= IZR q) as Hq' by (apply IZR_le; exact Hq).
  split.
  - intros Hlt.
    assert (0 < IZR t) as Ht by lra.
    split; [apply lt_IZR; exact Ht |].
    apply lt_IZR. rewrite mult_IZR.
    rewrite <- (sqrt_sqrt (IZR q) Hq').
    apply Rmult_le_0_lt_compat; lra.
  - intros [Ht Hlt].
    apply IZR_lt in Ht, Hlt. rewrite mult_IZR in Hlt.
    rewrite <- (sqrt_square (IZR t)) by lra.
    apply sqrt_lt_1_alt. lra.
Qed.

Lemma sqrt_IZR_ge (q t : Z) :
  (0 <= q)%Z -> IZR t <= sqrt (IZR q) <-> (t <= 0)%Z \/ (t * t <= q)%Z.
Proof.
  intros Hq.
  destruct (Z_lt_le_dec 0 t) as [Ht | Ht].
  - pose proof (sqrt_IZR_lt q t Hq) as Hlt.
    split.
    + intros Hge. right.
      destruct (Z_lt_le_dec q (t * t)) as [Hlt' | ]; [| assumption].
      assert (sqrt (IZR q) < IZR t) by (apply Hlt; auto). lra.
    + intros [Hle | Hle]; [lia |].
      apply Rnot_lt_le. intros Hc. apply Hlt in Hc. lia.
  - split; [auto |]. intros _.
    pose proof (sqrt_pos (IZR q)). apply IZR_le in Ht. lra.
Qed.

Lemma distance_ltb_spec (d : distance) (t : Z) :
  distance_ltb d t = true <-> distance_lt d t.
Proof.
  unfold distance_ltb, distance_lt, real_distance.
  destruct (radicand d) as [q |].
  - destruct (Z.leb_spec 0 q) as [Hq | Hq]; simpl.
    + rewrite andb_true_iff, Z.ltb_lt, Z.ltb_lt, <- (sqrt_IZR_lt q t Hq).
      split.
      * intros Hlt. eexists; split; [reflexivity | exact Hlt].
      * intros (r & Hr & Hlt). inversion Hr; subst. exact Hlt.
    + split; [discriminate |]. intros (r & Hr & _). discriminate.
  - split; [discriminate |]. intros (r & Hr & _). discriminate.
Qed.

Lemma distance_geb_spec (d : distance) (t : Z) :
  distance_geb d t = true <-> distance_ge d t.
Proof.
  unfold distance_geb, distance_ge, real_distance.
  destruct (radicand d) as [q |].
  - destruct (Z.leb_spec 0 q) as [Hq | Hq]; simpl.
    + rewrite orb_true_iff, Z.leb_le, Z.leb_le, <- (sqrt_IZR_ge q t Hq).
      split.
      * intros Hge. eexists; split; [reflexivity | exact Hge].
      * intros (r & Hr & Hge). inversion Hr; subst. exact Hge.
    + split; [discriminate |]. intros (r & Hr & _). discriminate.
  - split; [discriminate |]. intros (r & Hr & _). discriminate.
Qed.

(** A distance is never both below and at or above a threshold, and a
    distance that is a number is one or the other. *)
Lemma distance_ltb_geb (d : distance) (t : Z) :
  distance_ltb d t = true -> distance_geb d t = false.
Proof.
  unfold distance_ltb, distance_geb. destruct (radicand d) as [q |]; [| reflexivity].
  rewrite !andb_true_iff, Z.ltb_lt, Z.ltb_lt, Z.leb_le. intros [[Hq Ht] Hlt].
  apply andb_false_iff. right. apply orb_false_iff. split; apply Z.leb_gt; lia.
Qed.

Lemma real_distance_exactly (d : distance) (t : Z) :
  real_distance d = Some (IZR t) ->
  distance_geb d t = true /\ distance_ltb d t = false.
Proof.
  intros Hd. split.
  - apply distance_geb_spec. exists (IZR t). split; [exact Hd | lra].
  - destruct (distance_ltb d t) eqn:Hlt; [| reflexivity].
    apply distance_ltb_spec in Hlt. destruct Hlt as (r & Hr & Hlt).
    rewrite Hd in Hr. inversion Hr; subst. lra.
Qed.

End DistanceReal.

(** ** One call of [extractEvents], by the class of the raw event *)

Section ExtractEvents.
Context `{EPU : EventPluginUtils} `{TEU : TouchEventUtils}.

Implicit Types (vm : gmap string Z) (t : topLevelType) (id : string).
Implicit Types (e : NativeEvent) (s : State).

Lemma extractEvents_start vm t id e s :
  isStartish t = true ->
  extractEvents vm t id e s =
    if ignored (lastStartTouchEvent s) e then (Null, s)
    else (Single (tapStartEvent id e), armed_by vm e s).
Proof.
  intros Hs. unfold extractEvents, filter_repeated. rewrite Hs.
  destruct (ignored (lastStartTouchEvent s) e); reflexivity.
Qed.

Lemma extractEvents_end vm t id e s :
  isStartish t = false -> isEndish t = true ->
  extractEvents vm t id e s =
    if ignored (lastEndTouchEvent s) e then (Null, s)
    else (Array (end_events vm id e s), resolved_by e s).
Proof.
  intros Hs He. unfold extractEvents, filter_repeated, end_events. rewrite Hs, He.
  destruct (ignored (lastEndTouchEvent s) e); [reflexivity |].
  cbn [negb andb]. unfold getDuration, getTime. cbn.
  destruct (tapTimeThreshold <? timeStamp e - start (Time s)); [reflexivity |].
  destruct (distance_ltb _ _); reflexivity.
Qed.

Lemma extractEvents_move vm t id e s :
  isStartish t = false -> isEndish t = false ->
  extractEvents vm t id e s =
    if ToBoolean (x (startCoords s)) && ToBoolean (y (startCoords s)) then
      if distance_geb (getDistance vm (startCoords s) e) tapMoveThreshold
      then (Single (tapEndEvent id e), set_startCoords cleared s)
      else (Null, s)
    else (Null, s).
Proof.
  intros Hs He. unfold extractEvents, filter_repeated. rewrite Hs, He. reflexivity.
Qed.

(** The filter lets an event through exactly when there is no earlier
    accepted time stamp, when that time stamp is [0], or when the event is
    at least [ignoreMouseThreshold] later. *)
Lemma ignored_true_iff (last : option Z) e :
  ignored last e = true <->
  exists l, last = Some l /\ l <> 0 /\ timeStamp e - l < ignoreMouseThreshold.
Proof.
  unfold ignored. destruct last as [l |].
  - rewrite andb_true_iff, negb_true_iff, Z.eqb_neq, Z.ltb_lt. split.
    + intros [Hl Hlt]. exists l. auto.
    + intros (l' & Hl' & Hne & Hlt). inversion Hl'; subst. auto.
  - split; [discriminate |]. intros (l & Hl & _). discriminate.
Qed.

Lemma ignored_false_iff (last : option Z) e :
  ignored last e = false <->
  last = None \/ last = Some 0 \/
  exists l, last = Some l /\ ignoreMouseThreshold <= timeStamp e - l.
Proof.
  unfold ignored. destruct last as [l |].
  - rewrite andb_false_iff, negb_false_iff, Z.eqb_eq, Z.ltb_ge. split.
    + intros [Hl | Hge]; [subst; auto | right; right; eauto].
    + intros [Hn | [Hz | (l' & Hl' & Hge)]]; [discriminate | |].
      * inversion Hz; auto.
      * inversion Hl'; subst; auto.
  - split; auto.
Qed.

End ExtractEvents.

(** ** The recogniser, whatever the host's classification of raw kinds *)

Section Recogniser.
Context `{EPU : EventPluginUtils} `{TEU : TouchEventUtils}.

Implicit Types (vm : gmap string Z) (t : topLevelType) (id : string).
Implicit Types (e : NativeEvent) (s : State).

(** C5: a start-class raw event that passes the filter on repeated events
    records its time stamp as the gesture start time, captures its page
    position as the gesture origin, whatever the state held before, and
    returns exactly one tap-start event.  (It also becomes the last accepted
    start-class event; nothing else changes.) *)
Theorem start_event_arms vm t id e s :
  isStartish t = true ->
  ignored (lastStartTouchEvent s) e = false ->
  fst (extractEvents vm t id e s) = Single (tapStartEvent id e) /\
  start (Time (snd (extractEvents vm t id e s))) = getTime e /\
  startCoords (snd (extractEvents vm t id e s)) =
    {| x := Some (getAxisCoordOfEvent vm Axis.x e);
       y := Some (getAxisCoordOfEvent vm Axis.y e) |} /\
  lastStartTouchEvent (snd (extractEvents vm t id e s)) = Some (timeStamp e) /\
  end_ (Time (snd (extractEvents vm t id e s))) = end_ (Time s) /\
  lastEndTouchEvent (snd (extractEvents vm t id e s)) = lastEndTouchEvent s.
Proof.
  intros Hs Hpass. rewrite (extractEvents_start vm t id e s Hs), Hpass. cbn.
  repeat split; reflexivity.
Qed.

Lemma end_events_timed_out vm id e s :
  tapTimeThreshold < getTime e - start (Time s) ->
  end_events vm id e s = [tapEndEvent id e].
Proof.
  intros Hd. unfold end_events, getTime in *.
  destruct (Z.ltb_spec tapTimeThreshold (timeStamp e - start (Time s))); [reflexivity | lia].
Qed.

Lemma end_events_in_time vm id e s :
  getTime e - start (Time s) <= tapTimeThreshold ->
  end_events vm id e s =
    tapEndEvent id e ::
    (if distance_ltb (getDistance vm (startCoords s) e) tapMoveThreshold
     then [tapEvent id e] else []).
Proof.
  intros Hd. unfold end_events, getTime in *.
  destruct (Z.ltb_spec tapTimeThreshold (timeStamp e - start (Time s))); [lia |].
  destruct (distance_ltb _ _); reflexivity.
Qed.

(** Start at page position [(0, 0)] with time stamp [0], then end at
    [(3, 4)] with time stamp [100], both passing the filter. *)
Lemma start_then_end_3_4 s vm0 t0 id0 e0 vm1 t1 id1 e1 :
  isStartish t0 = true -> ignored (lastStartTouchEvent s) e0 = false ->
  getTime e0 = 0 ->
  getAxisCoordOfEvent vm0 Axis.x e0 = Num 0 ->
  getAxisCoordOfEvent vm0 Axis.y e0 = Num 0 ->
  isStartish t1 = false -> isEndish t1 = true ->
  ignored (lastEndTouchEvent s) e1 = false ->
  getTime e1 = 100 ->
  getAxisCoordOfEvent vm1 Axis.x e1 = Num 3 ->
  getAxisCoordOfEvent vm1 Axis.y e1 = Num 4 ->
  fst (dispatch [mkCall vm0 t0 id0 e0; mkCall vm1 t1 id1 e1] s) =
    [Single (tapStartEvent id0 e0); Array [tapEndEvent id1 e1; tapEvent id1 e1]].
Proof.
  unfold getTime. intros Hs0 Hp0 Ht0 Hx0 Hy0 Hs1 He1 Hp1 Ht1 Hx1 Hy1.
  cbn [dispatch viewport kind targetID native].
  rewrite (extractEvents_start vm0 t0 id0 e0 s Hs0), Hp0.
  rewrite (extractEvents_end vm1 t1 id1 e1 _ Hs1 He1).
  cbn [armed_by lastEndTouchEvent]. rewrite Hp1.
  unfold end_events, getDistance. cbn [startCoords armed_by Time start x y ToNumber].
  rewrite Ht0, Ht1, Hx0, Hy0, Hx1, Hy1. reflexivity.
Qed.

(** The distance between an origin and a page position that are both
    numbers ([null] in the origin reads as [0]). *)
Lemma getDistance_numeric vm (c : Coords) e (ox oy px py : Z) :
  ToNumber (x c) = Num ox -> ToNumber (y c) = Num oy ->
  getAxisCoordOfEvent vm Axis.x e = Num px ->
  getAxisCoordOfEvent vm Axis.y e = Num py ->
  getDistance vm c e = Sqrt (Num ((px - ox) * (px - ox) + (py - oy) * (py - oy))).
Proof.
  intros Hox Hoy Hpx Hpy. unfold getDistance. rewrite Hox, Hoy, Hpx, Hpy. reflexivity.
Qed.

Lemma sum_of_squares_nonneg (a b : Z) : 0 <= a * a + b * b.
Proof.
  pose proof (Z.square_nonneg a). pose proof (Z.square_nonneg b). lia.
Qed.

Lemma distance_ltb_squares (a b : Z) :
  distance_ltb (Sqrt (Num (a * a + b * b))) tapMoveThreshold =
    (a * a + b * b <? tapMoveThreshold * tapMoveThreshold).
Proof.
  unfold distance_ltb. cbn [radicand].
  destruct (Z.leb_spec 0 (a * a + b * b)) as [_ | Hneg].
  - reflexivity.
  - pose proof (sum_of_squares_nonneg a b). lia.
Qed.

(** An accepted start-class event at [(ox, oy)] followed by an accepted
    end-class event at [(px, py)]. *)
Lemma press_then_release s vm0 t0 id0 e0 vm1 t1 id1 e1 (ox oy px py : Z) :
  isStartish t0 = true -> ignored (lastStartTouchEvent s) e0 = false ->
  getAxisCoordOfEvent vm0 Axis.x e0 = Num ox ->
  getAxisCoordOfEvent vm0 Axis.y e0 = Num oy ->
  isStartish t1 = false -> isEndish t1 = true ->
  ignored (lastEndTouchEvent s) e1 = false ->
  getAxisCoordOfEvent vm1 Axis.x e1 = Num px ->
  getAxisCoordOfEvent vm1 Axis.y e1 = Num py ->
  fst (dispatch [mkCall vm0 t0 id0 e0; mkCall vm1 t1 id1 e1] s) =
    [Single (tapStartEvent id0 e0);
     Array (tapEndEvent id1 e1 ::
            if (getTime e1 - getTime e0 <=? tapTimeThreshold) &&
               ((px - ox) * (px - ox) + (py - oy) * (py - oy)
                  <? tapMoveThreshold * tapMoveThreshold)
            then [tapEvent id1 e1] else [])].
Proof.
  intros Hs0 Hp0 Hx0 Hy0 Hs1 He1 Hp1 Hx1 Hy1.
  cbn [dispatch viewport kind targetID native].
  rewrite (extractEvents_start vm0 t0 id0 e0 s Hs0), Hp0.
  rewrite (extractEvents_end vm1 t1 id1 e1 _ Hs1 He1).
  cbn [armed_by lastEndTouchEvent]. rewrite Hp1. cbn [fst].
  unfold end_events.
  rewrite (getDistance_numeric vm1 _ e1 ox oy px py)
    by (cbn [armed_by startCoords x y ToNumber]; assumption).
  rewrite distance_ltb_squares. unfold getTime. cbn [armed_by Time start].
  rewrite Z.ltb_antisym.
  destruct (timeStamp e1 - timeStamp e0 <=? tapTimeThreshold); cbn [negb andb];
    [| reflexivity].
  destruct (_ <? _); reflexivity.
Qed.

(** C1: an end-class raw event that passes the filter returns exactly
    [[tap-end]] when the duration (its time stamp minus the recorded start
    time) exceeds 2000; otherwise it returns a tap-end followed by a tap
    exactly when the distance from the recorded origin to its page position
    is strictly below [tapMoveThreshold], and the tap-end alone when it is
    not.  The distance is the Euclidean one: from the recorded origin
    [(ox, oy)] to the page position [(px, py)] it is
    [sqrt ((px - ox)^2 + (py - oy)^2)], so that an accepted start at
    [(ox, oy)] followed by an accepted end at [(px, py)] returns a tap
    exactly when the end is in time and
    [(px - ox)^2 + (py - oy)^2 < tapMoveThreshold^2].  An accepted start at
    (0,0), t=0 followed by an accepted end at (3,4), t=100, at distance 5,
    gives [[tap-end, tap]]. *)
Theorem end_event_emits :
  (forall vm t id e s,
     isStartish t = false -> isEndish t = true ->
     ignored (lastEndTouchEvent s) e = false ->
     let duration := getTime e - start (Time s) in
     let d := getDistance vm (startCoords s) e in
     let result := fst (extractEvents vm t id e s) in
     (tapTimeThreshold < duration -> result = Array [tapEndEvent id e]) /\
     (duration <= tapTimeThreshold -> distance_lt d tapMoveThreshold ->
        result = Array [tapEndEvent id e; tapEvent id e]) /\
     (duration <= tapTimeThreshold -> ~ distance_lt d tapMoveThreshold ->
        result = Array [tapEndEvent id e])) /\
  (forall s vm0 t0 id0 e0 vm1 t1 id1 e1,
     isStartish t0 = true -> ignored (lastStartTouchEvent s) e0 = false ->
     getTime e0 = 0 ->
     getAxisCoordOfEvent vm0 Axis.x e0 = Num 0 ->
     getAxisCoordOfEvent vm0 Axis.y e0 = Num 0 ->
     isStartish t1 = false -> isEndish t1 = true ->
     ignored (lastEndTouchEvent s) e1 = false ->
     getTime e1 = 100 ->
     getAxisCoordOfEvent vm1 Axis.x e1 = Num 3 ->
     getAxisCoordOfEvent vm1 Axis.y e1 = Num 4 ->
     real_distance (getDistance vm1 {| x := Some (Num 0); y := Some (Num 0) |} e1)
       = Some 5%R /\
     fst (dispatch [mkCall vm0 t0 id0 e0; mkCall vm1 t1 id1 e1] s) =
       [Single (tapStartEvent id0 e0); Array [tapEndEvent id1 e1; tapEvent id1 e1]]) /\
  (forall vm t id e s (ox oy px py : Z),
     isStartish t = false -> isEndish t = true ->
     ignored (lastEndTouchEvent s) e = false ->
     ToNumber (x (startCoords s)) = Num ox ->
     ToNumber (y (startCoords s)) = Num oy ->
     getAxisCoordOfEvent vm Axis.x e = Num px ->
     getAxisCoordOfEvent vm Axis.y e = Num py ->
     real_distance (getDistance vm (startCoords s) e) =
       Some (sqrt (IZR ((px - ox) * (px - ox) + (py - oy) * (py - oy)))) /\
     (getTime e - start (Time s) <= tapTimeThreshold ->
      (fst (extractEvents vm t id e s) = Array [tapEndEvent id e; tapEvent id e] <->
       (px - ox) * (px - ox) + (py - oy) * (py - oy)
         < tapMoveThreshold * tapMoveThreshold) /\
      (fst (extractEvents vm t id e s) = Array [tapEndEvent id e] <->
       tapMoveThreshold * tapMoveThreshold
         <= (px - ox) * (px - ox) + (py - oy) * (py - oy)))) /\
  (forall s vm0 t0 id0 e0 vm1 t1 id1 e1 (ox oy px py : Z),
     isStartish t0 = true -> ignored (lastStartTouchEvent s) e0 = false ->
     getAxisCoordOfEvent vm0 Axis.x e0 = Num ox ->
     getAxisCoordOfEvent vm0 Axis.y e0 = Num oy ->
     isStartish t1 = false -> isEndish t1 = true ->
     ignored (lastEndTouchEvent s) e1 = false ->
     getAxisCoordOfEvent vm1 Axis.x e1 = Num px ->
     getAxisCoordOfEvent vm1 Axis.y e1 = Num py ->
     fst (dispatch [mkCall vm0 t0 id0 e0; mkCall vm1 t1 id1 e1] s) =
       [Single (tapStartEvent id0 e0);
        Array (tapEndEvent id1 e1 ::
               if (getTime e1 - getTime e0 <=? tapTimeThreshold) &&
                  ((px - ox) * (px - ox) + (py - oy) * (py - oy)
                     <? tapMoveThreshold * tapMoveThreshold)
               then [tapEvent id1 e1] else [])]).
Proof.
  split; [| split; [| split]].
  - intros vm t id e s Hs He Hpass duration d result. subst duration d result.
    rewrite (extractEvents_end vm t id e s Hs He), Hpass. cbn [fst].
    split; [| split].
    + intros Hd. rewrite end_events_timed_out by exact Hd. reflexivity.
    + intros Hd Hlt. rewrite end_events_in_time by exact Hd.
      apply distance_ltb_spec in Hlt. rewrite Hlt. reflexivity.
    + intros Hd Hge. rewrite end_events_in_time by exact Hd.
      destruct (distance_ltb _ _) eqn:Hlt; [| reflexivity].
      apply distance_ltb_spec in Hlt. contradiction.
  - intros s vm0 t0 id0 e0 vm1 t1 id1 e1 Hs0 Hp0 Ht0 Hx0 Hy0 Hs1 He1 Hp1 Ht1 Hx1 Hy1.
    split; [| apply start_then_end_3_4; assumption].
    unfold real_distance, getDistance. rewrite Hx1, Hy1. cbn.
    f_equal. change (sqrt 25 = 5)%R.
    replace 25%R with (5 * 5)%R by lra. apply sqrt_square. lra.
  - intros vm t id e s ox oy px py Hs He Hpass Hox Hoy Hpx Hpy.
    rewrite (getDistance_numeric vm _ e ox oy px py Hox Hoy Hpx Hpy).
    pose proof (sum_of_squares_nonneg (px - ox) (py - oy)) as Hq.
    split.
    + unfold real_distance. cbn [radicand].
      destruct (Z.leb_spec 0 ((px - ox) * (px - ox) + (py - oy) * (py - oy)));
        [reflexivity | lia].
    + intros Hd.
      rewrite (extractEvents_end vm t id e s Hs He), Hpass. cbn [fst].
      rewrite end_events_in_time by exact Hd.
      rewrite (getDistance_numeric vm _ e ox oy px py Hox Hoy Hpx Hpy).
      rewrite distance_ltb_squares.
      destruct (Z.ltb_spec ((px - ox) * (px - ox) + (py - oy) * (py - oy))
                           (tapMoveThreshold * tapMoveThreshold)) as [Hlt | Hge].
      * split; split; intros H'; try reflexivity; try exact Hlt;
          try discriminate H'; lia.
      * split; split; intros H'; try reflexivity; try exact Hge;
          try discriminate H'; lia.
  - intros s vm0 t0 id0 e0 vm1 t1 id1 e1 ox oy px py. apply press_then_release.
Qed.

(** What a move-class raw event does.  Received while both coordinates of
    the recorded origin are nonzero numbers, it clears the origin and returns
    a single tap-end event when its distance from the origin is at least
    [tapMoveThreshold], and returns nothing and leaves the state unchanged
    when it is not; received while a coordinate of the origin is [null], [0]
    or not a number, it returns nothing and changes no state. *)
Lemma move_event_checks_origin vm t id e s :
  isStartish t = false -> isEndish t = false ->
  let d := getDistance vm (startCoords s) e in
  let armed := ToBoolean (x (startCoords s)) && ToBoolean (y (startCoords s)) in
  (armed = true -> distance_ge d tapMoveThreshold ->
     extractEvents vm t id e s =
       (Single (tapEndEvent id e), set_startCoords cleared s)) /\
  (armed = true -> ~ distance_ge d tapMoveThreshold ->
     extractEvents vm t id e s = (Null, s)) /\
  (armed = false -> extractEvents vm t id e s = (Null, s)).
Proof.
  intros Hs He d armed. subst d armed.
  rewrite (extractEvents_move vm t id e s Hs He).
  split; [| split].
  - intros -> Hge. apply distance_geb_spec in Hge. rewrite Hge. reflexivity.
  - intros -> Hlt.
    destruct (distance_geb _ _) eqn:Hge; [| reflexivity].
    apply distance_geb_spec in Hge. contradiction.
  - intros ->. reflexivity.
Qed.

(** What the filter on repeated events does.  A start-class raw event whose
    time stamp is less than [ignoreMouseThreshold] (350) after a nonzero
    last accepted start-class time stamp returns nothing and changes no
    state, the last accepted time stamp included, so that a later
    start-class event 350 or more after the accepted one is processed
    normally; an accepted start-class event becomes the last accepted one;
    and the same holds for end-class events against the last accepted
    end-class time stamp. *)
Lemma repeated_event_ignored :
  (forall vm t id e s l,
     isStartish t = true ->
     lastStartTouchEvent s = Some l -> l <> 0 ->
     timeStamp e - l < ignoreMouseThreshold ->
     extractEvents vm t id e s = (Null, s)) /\
  (forall vm t id e s l vm' t' id' e',
     isStartish t = true ->
     lastStartTouchEvent s = Some l -> l <> 0 ->
     timeStamp e - l < ignoreMouseThreshold ->
     isStartish t' = true ->
     ignoreMouseThreshold <= timeStamp e' - l ->
     fst (dispatch [mkCall vm t id e; mkCall vm' t' id' e'] s) =
       [Null; Single (tapStartEvent id' e')]) /\
  (forall vm t id e s,
     isStartish t = true ->
     ignored (lastStartTouchEvent s) e = false ->
     lastStartTouchEvent (snd (extractEvents vm t id e s)) = Some (timeStamp e)) /\
  (forall vm t id e s l,
     isStartish t = false -> isEndish t = true ->
     lastEndTouchEvent s = Some l -> l <> 0 ->
     timeStamp e - l < ignoreMouseThreshold ->
     extractEvents vm t id e s = (Null, s)) /\
  (forall vm t id e s l vm' t' id' e',
     isStartish t = false -> isEndish t = true ->
     lastEndTouchEvent s = Some l -> l <> 0 ->
     timeStamp e - l < ignoreMouseThreshold ->
     isStartish t' = false -> isEndish t' = true ->
     ignoreMouseThreshold <= timeStamp e' - l ->
     fst (dispatch [mkCall vm t id e; mkCall vm' t' id' e'] s) =
       [Null; Array (end_events vm' id' e' s)]) /\
  (forall vm t id e s,
     isStartish t = false -> isEndish t = true ->
     ignored (lastEndTouchEvent s) e = false ->
     lastEndTouchEvent (snd (extractEvents vm t id e s)) = Some (timeStamp e)).
Proof.
  assert (Hign : forall last e l,
             last = Some l -> l <> 0 -> timeStamp e - l < ignoreMouseThreshold ->
             ignored last e = true).
  { intros last e l Hl Hne Hlt. apply ignored_true_iff. eauto. }
  assert (Hacc : forall last e l,
             last = Some l -> ignoreMouseThreshold <= timeStamp e - l ->
             ignored last e = false).
  { intros last e l Hl Hge. apply ignored_false_iff. eauto. }
  repeat apply conj.
  - intros vm t id e s l Hs Hl Hne Hlt.
    rewrite (extractEvents_start vm t id e s Hs), (Hign _ _ _ Hl Hne Hlt). reflexivity.
  - intros vm t id e s l vm' t' id' e' Hs Hl Hne Hlt Hs' Hge.
    cbn [dispatch viewport kind targetID native].
    rewrite (extractEvents_start vm t id e s Hs), (Hign _ _ _ Hl Hne Hlt).
    rewrite (extractEvents_start vm' t' id' e' s Hs'), (Hacc _ _ _ Hl Hge). reflexivity.
  - intros vm t id e s Hs Hpass.
    rewrite (extractEvents_start vm t id e s Hs), Hpass. reflexivity.
  - intros vm t id e s l Hs He Hl Hne Hlt.
    rewrite (extractEvents_end vm t id e s Hs He), (Hign _ _ _ Hl Hne Hlt). reflexivity.
  - intros vm t id e s l vm' t' id' e' Hs He Hl Hne Hlt Hs' He' Hge.
    cbn [dispatch viewport kind targetID native].
    rewrite (extractEvents_end vm t id e s Hs He), (Hign _ _ _ Hl Hne Hlt).
    rewrite (extractEvents_end vm' t' id' e' s Hs' He'), (Hacc _ _ _ Hl Hge). reflexivity.
  - intros vm t id e s Hs He Hpass.
    rewrite (extractEvents_end vm t id e s Hs He), Hpass. reflexivity.
Qed.

(** What a resolution resets.  Whenever an event that is not start-class
    returns something, the origin [startCoords] is reset to (0, 0); an
    end-class event also resets [Time.start] and [Time.end] to 0, whereas a
    move-abort leaves both clock fields as they were. *)
Lemma resolution_resets vm t id e s :
  isStartish t = false ->
  fst (extractEvents vm t id e s) <> Null ->
  startCoords (snd (extractEvents vm t id e s)) =
    {| x := Some (Num 0); y := Some (Num 0) |} /\
  (isEndish t = true ->
     Time (snd (extractEvents vm t id e s)) = {| start := 0; end_ := 0 |}) /\
  (isEndish t = false ->
     Time (snd (extractEvents vm t id e s)) = Time s).
Proof.
  intros Hs. destruct (isEndish t) eqn:He.
  - rewrite (extractEvents_end vm t id e s Hs He).
    destruct (ignored _ _); cbn; [congruence |].
    intros _. split; [reflexivity |]. split; [reflexivity | discriminate].
  - rewrite (extractEvents_move vm t id e s Hs He).
    destruct (_ && _); cbn; [| congruence].
    destruct (distance_geb _ _); cbn; [| congruence].
    intros _. split; [reflexivity |]. split; [discriminate | reflexivity].
Qed.

Lemma real_distance_of_square (d : distance) (t : Z) :
  0 <= t -> radicand d = Num (t * t) -> real_distance d = Some (IZR t).
Proof.
  intros Ht Hd. unfold real_distance. rewrite Hd.
  destruct (Z.leb_spec 0 (t * t)); [| nia].
  rewrite mult_IZR, sqrt_square; [reflexivity |]. apply IZR_le. exact Ht.
Qed.

(** The two comparisons at the boundary, for an origin that passes the
    plugin's own check on [startCoords].  At a distance exactly equal to
    [tapMoveThreshold] a move-class event aborts the gesture and an
    end-class event does not confirm a tap; at any distance the abort is
    decided by [distance >= tapMoveThreshold] and the tap by
    [distance < tapMoveThreshold], on the same constant. *)
Lemma threshold_boundary vm t id e s :
  let d := getDistance vm (startCoords s) e in
  let armed := ToBoolean (x (startCoords s)) && ToBoolean (y (startCoords s)) in
  (real_distance d = Some (IZR tapMoveThreshold) ->
   isStartish t = false -> isEndish t = false -> armed = true ->
   extractEvents vm t id e s =
     (Single (tapEndEvent id e), set_startCoords cleared s)) /\
  (real_distance d = Some (IZR tapMoveThreshold) ->
   isStartish t = false -> isEndish t = true ->
   ignored (lastEndTouchEvent s) e = false ->
   fst (extractEvents vm t id e s) = Array [tapEndEvent id e]) /\
  (isStartish t = false -> isEndish t = false -> armed = true ->
   (fst (extractEvents vm t id e s) = Single (tapEndEvent id e) <->
    distance_ge d tapMoveThreshold)) /\
  (isStartish t = false -> isEndish t = true ->
   ignored (lastEndTouchEvent s) e = false ->
   getTime e - start (Time s) <= tapTimeThreshold ->
   (fst (extractEvents vm t id e s) = Array [tapEndEvent id e; tapEvent id e] <->
    distance_lt d tapMoveThreshold)).
Proof.
  intros d armed. subst d armed. repeat apply conj.
  - intros Hd Hs He Harmed. apply real_distance_exactly in Hd as [Hge _].
    rewrite (extractEvents_move vm t id e s Hs He), Harmed, Hge. reflexivity.
  - intros Hd Hs He Hpass. apply real_distance_exactly in Hd as [_ Hlt].
    rewrite (extractEvents_end vm t id e s Hs He), Hpass. cbn [fst].
    unfold end_events. rewrite Hlt. destruct (_ <? _); reflexivity.
  - intros Hs He Harmed.
    rewrite (extractEvents_move vm t id e s Hs He), Harmed, <- distance_geb_spec.
    destruct (distance_geb _ _); cbn; split; (reflexivity || discriminate).
  - intros Hs He Hpass Hd.
    rewrite (extractEvents_end vm t id e s Hs He), Hpass, <- distance_ltb_spec.
    cbn [fst]. rewrite end_events_in_time by exact Hd.
    destruct (distance_ltb _ _); cbn; split; (reflexivity || discriminate).
Qed.

(** C7: for every axis descriptor and raw event, [getAxisCoordOfEvent]
    returns the page coordinate of the touch point when
    [extractSingleTouch] finds one; otherwise the event's own page
    coordinate when it has that property; otherwise its client coordinate
    plus the viewport's scroll offset for the axis.  [getDistance] applies
    it to the x and to the y axis alike. *)
Theorem axis_coord_policy vm (axis : AxisDesc) e :
  (forall touch, extractSingleTouch e = Some touch ->
     getAxisCoordOfEvent vm axis e = get touch (page axis)) /\
  (forall v, extractSingleTouch e = None -> props e !! page axis = Some v ->
     getAxisCoordOfEvent vm axis e = Num v) /\
  (extractSingleTouch e = None -> props e !! page axis = None ->
     getAxisCoordOfEvent vm axis e =
       num_add (get (props e) (client axis)) (get vm (envScroll axis))) /\
  (forall c o, extractSingleTouch e = None -> props e !! page axis = None ->
     props e !! client axis = Some c -> vm !! envScroll axis = Some o ->
     getAxisCoordOfEvent vm axis e = Num (c + o)) /\
  (forall coords,
     getDistance vm coords e =
       Sqrt (num_add
               (pow2 (num_sub (getAxisCoordOfEvent vm Axis.x e) (ToNumber (x coords))))
               (pow2 (num_sub (getAxisCoordOfEvent vm Axis.y e) (ToNumber (y coords)))))).
Proof.
  unfold getAxisCoordOfEvent. repeat apply conj.
  - intros touch ->. reflexivity.
  - intros v -> ->. reflexivity.
  - intros -> ->. reflexivity.
  - intros c o -> -> Hc Ho. unfold get. rewrite Hc, Ho. reflexivity.
  - intros coords. reflexivity.
Qed.

(** C8 (amended): when the host has touch events switched on
    ([useTouchEvents]), the declared dependency list is the touch-based
    kinds if the window reports touch capability and the mouse-based kinds
    otherwise, and each of the three exposed event types carries that
    list. *)
Theorem dependencies_by_touch_capability (window : gset string) :
  useTouchEvents = true ->
  (isTouchDevice window = true -> dependencies window = Some touchDependencies) /\
  (isTouchDevice window = false -> dependencies window = Some mouseDependencies) /\
  (forall k, dependencies_of (eventTypes window k) = dependencies window).
Proof.
  intros Hu. repeat apply conj.
  - intros Ht. unfold dependencies. rewrite Hu, Ht. reflexivity.
  - intros Ht. unfold dependencies. rewrite Hu, Ht. reflexivity.
  - intros []; reflexivity.
Qed.

(** A falsy coordinate of the origin switches the move branch off. *)
Lemma zero_coordinate_falsy (c : Coords) :
  x c = Some (Num 0) \/ y c = Some (Num 0) ->
  ToBoolean (x c) && ToBoolean (y c) = false.
Proof.
  intros [-> | ->]; cbn; [reflexivity | apply andb_false_r].
Qed.

Lemma dispatch_moves_ignored (calls : list Call) s :
  x (startCoords s) = Some (Num 0) \/ y (startCoords s) = Some (Num 0) ->
  Forall is_move calls ->
  dispatch calls s = (map (fun _ => Null) calls, s).
Proof.
  intros Hzero Hmoves.
  induction Hmoves as [| c calls [Hs He] _ IH]; [reflexivity |].
  cbn [dispatch map].
  rewrite (extractEvents_move _ _ _ _ s Hs He), (zero_coordinate_falsy _ Hzero), IH.
  reflexivity.
Qed.

(** C9: the move branch tests the truthiness of [startCoords.x] and
    [startCoords.y], and a resolution sets the origin to (0, 0), not to
    [null].  So once a gesture's captured origin has x = 0 or y = 0, every
    following move-class event returns nothing and changes no state, however
    far from the origin it is. *)
Theorem zero_origin_never_aborts :
  (forall vm t id e s,
     isStartish t = false -> isEndish t = false ->
     ToBoolean (x (startCoords s)) && ToBoolean (y (startCoords s)) = false ->
     extractEvents vm t id e s = (Null, s)) /\
  (forall vm t id e s,
     isStartish t = false ->
     fst (extractEvents vm t id e s) <> Null ->
     startCoords (snd (extractEvents vm t id e s)) =
       {| x := Some (Num 0); y := Some (Num 0) |}) /\
  (forall s (calls : list Call),
     x (startCoords s) = Some (Num 0) \/ y (startCoords s) = Some (Num 0) ->
     Forall is_move calls ->
     dispatch calls s = (map (fun _ => Null) calls, s)) /\
  (forall vm t id e s (calls : list Call),
     isStartish t = true ->
     ignored (lastStartTouchEvent s) e = false ->
     getAxisCoordOfEvent vm Axis.x e = Num 0 \/
     getAxisCoordOfEvent vm Axis.y e = Num 0 ->
     Forall is_move calls ->
     dispatch (mkCall vm t id e :: calls) s =
       (Single (tapStartEvent id e) :: map (fun _ => Null) calls, armed_by vm e s)).
Proof.
  repeat apply conj.
  - intros vm t id e s Hs He Hfalsy.
    rewrite (extractEvents_move vm t id e s Hs He), Hfalsy. reflexivity.
  - intros vm t id e s Hs. destruct (isEndish t) eqn:He.
    + rewrite (extractEvents_end vm t id e s Hs He).
      destruct (ignored _ _); cbn; [congruence | reflexivity].
    + rewrite (extractEvents_move vm t id e s Hs He).
      destruct (_ && _); cbn; [| congruence].
      destruct (distance_geb _ _); cbn; [reflexivity | congruence].
  - intros s calls. apply dispatch_moves_ignored.
  - intros vm t id e s calls Hs Hpass Hzero Hmoves.
    cbn [dispatch viewport kind targetID native].
    rewrite (extractEvents_start vm t id e s Hs), Hpass.
    rewrite dispatch_moves_ignored; [reflexivity | | exact Hmoves].
    cbn [armed_by startCoords x y]. destruct Hzero as [-> | ->]; auto.
Qed.

(** The distance reads the origin through [ToNumber] only. *)
Lemma getDistance_from_zero vm (c : Coords) e :
  ToNumber (x c) = Num 0 -> ToNumber (y c) = Num 0 ->
  getDistance vm c e = getDistance vm cleared e.
Proof.
  intros Hx Hy. unfold getDistance. rewrite Hx, Hy. reflexivity.
Qed.

Lemma end_events_unarmed vm id e s :
  ToNumber (x (startCoords s)) = Num 0 ->
  ToNumber (y (startCoords s)) = Num 0 ->
  start (Time s) = 0 ->
  end_events vm id e s = end_events_from_cleared vm id e.
Proof.
  intros Hx Hy Ht. unfold end_events, end_events_from_cleared.
  rewrite (getDistance_from_zero vm _ e Hx Hy), Ht. reflexivity.
Qed.

(** C10 (amended): the end branch never checks whether a gesture is armed:
    every end-class event that passes the filter returns a tap-end.  With
    no earlier start-class event, or after an end-class event has resolved
    the gesture, the tap is decided against the origin (0, 0) and the start
    time 0, so a stray end-class event whose page position is within
    [tapMoveThreshold] of (0, 0) and whose time stamp is at most 2000 also
    returns a tap.  After a move-abort the distance is taken from the
    cleared origin (0, 0): a tap is returned only if the page position is
    within [tapMoveThreshold] of (0, 0). *)
Theorem stray_end_event :
  (forall vm t id e s,
     isStartish t = false -> isEndish t = true ->
     ignored (lastEndTouchEvent s) e = false ->
     exists rest, fst (extractEvents vm t id e s) = Array (tapEndEvent id e :: rest)) /\
  (forall vm t id e s,
     isStartish t = false -> isEndish t = true ->
     ignored (lastEndTouchEvent s) e = false ->
     ToNumber (x (startCoords s)) = Num 0 ->
     ToNumber (y (startCoords s)) = Num 0 ->
     start (Time s) = 0 ->
     fst (extractEvents vm t id e s) = Array (end_events_from_cleared vm id e)) /\
  (ToNumber (x (startCoords initial)) = Num 0 /\
   ToNumber (y (startCoords initial)) = Num 0 /\
   start (Time initial) = 0) /\
  (forall vm t id e s,
     isStartish t = false -> isEndish t = true ->
     ignored (lastEndTouchEvent s) e = false ->
     ToNumber (x (startCoords (snd (extractEvents vm t id e s)))) = Num 0 /\
     ToNumber (y (startCoords (snd (extractEvents vm t id e s)))) = Num 0 /\
     start (Time (snd (extractEvents vm t id e s))) = 0) /\
  (forall vm t id e s vm' t' id' e',
     isStartish t = false -> isEndish t = false ->
     fst (extractEvents vm t id e s) <> Null ->
     isStartish t' = false -> isEndish t' = true ->
     ignored (lastEndTouchEvent s) e' = false ->
     exists rest,
       fst (extractEvents vm' t' id' e' (snd (extractEvents vm t id e s))) =
         Array (tapEndEvent id' e' :: rest) /\
       (rest = [] \/ rest = [tapEvent id' e']) /\
       (rest = [tapEvent id' e'] ->
          distance_lt (getDistance vm' cleared e') tapMoveThreshold)) /\
  (forall vm t id e s,
     isStartish t = false -> isEndish t = true ->
     ignored (lastEndTouchEvent s) e = false ->
     ToNumber (x (startCoords s)) = Num 0 ->
     ToNumber (y (startCoords s)) = Num 0 ->
     start (Time s) = 0 ->
     distance_lt (getDistance vm cleared e) tapMoveThreshold ->
     getTime e <= tapTimeThreshold ->
     fst (extractEvents vm t id e s) = Array [tapEndEvent id e; tapEvent id e]).
Proof.
  repeat apply conj; try reflexivity.
  - intros vm t id e s Hs He Hpass.
    rewrite (extractEvents_end vm t id e s Hs He), Hpass. cbn [fst].
    unfold end_events. destruct (_ <? _); [| destruct (distance_ltb _ _)]; eauto.
  - intros vm t id e s Hs He Hpass Hx Hy Ht.
    rewrite (extractEvents_end vm t id e s Hs He), Hpass. cbn [fst].
    rewrite end_events_unarmed by assumption. reflexivity.
  - intros vm t id e s Hs He Hpass.
    rewrite (extractEvents_end vm t id e s Hs He), Hpass. cbn. auto.
  - intros vm t id e s vm' t' id' e' Hs He Hres Hs' He' Hpass.
    rewrite (extractEvents_move vm t id e s Hs He) in Hres |- *.
    destruct (_ && _); cbn in Hres; [| congruence].
    destruct (distance_geb _ _); cbn in Hres; [| congruence].
    cbn [snd]. rewrite (extractEvents_end vm' t' id' e' _ Hs' He').
    cbn [set_startCoords lastEndTouchEvent]. rewrite Hpass. cbn [fst].
    unfold end_events. cbn [startCoords].
    destruct (_ <? _); [exists []; split; [reflexivity | split; [auto | discriminate]] |].
    destruct (distance_ltb _ _) eqn:Hlt.
    + exists [tapEvent id' e']. split; [reflexivity |]. split; [auto |].
      intros _. apply distance_ltb_spec. exact Hlt.
    + exists []. split; [reflexivity |]. split; [auto | discriminate].
  - intros vm t id e s Hs He Hpass Hx Hy Ht Hlt Hd.
    rewrite (extractEvents_end vm t id e s Hs He), Hpass. cbn [fst].
    rewrite end_events_in_time by (rewrite Ht; lia).
    rewrite (getDistance_from_zero vm _ e Hx Hy).
    apply distance_ltb_spec in Hlt. rewrite Hlt. reflexivity.
Qed.

End Recogniser.

(** ** Sequences of calls *)

Section Traces.
Context `{EPU : EventPluginUtils} `{TEU : TouchEventUtils}.

Implicit Types (vm : gmap string Z) (t : topLevelType) (id : string).
Implicit Types (e : NativeEvent) (s : State) (calls : list Call).

Lemma dispatch_cons c calls s :
  dispatch (c :: calls) s =
    (fst (extractEvents (viewport c) (kind c) (targetID c) (native c) s) ::
       fst (dispatch calls
              (snd (extractEvents (viewport c) (kind c) (targetID c) (native c) s))),
     snd (dispatch calls
            (snd (extractEvents (viewport c) (kind c) (targetID c) (native c) s)))).
Proof.
  cbn [dispatch]. destruct (extractEvents _ _ _ _ s) as [r s1]. cbn [fst snd].
  destruct (dispatch calls s1) as [rs s2]. reflexivity.
Qed.

Lemma dispatch_app calls calls' s :
  dispatch (calls ++ calls') s =
    (fst (dispatch calls s) ++ fst (dispatch calls' (snd (dispatch calls s))),
     snd (dispatch calls' (snd (dispatch calls s)))).
Proof.
  revert s. induction calls as [| c calls IH]; intros s.
  - cbn. destruct (dispatch calls' s); reflexivity.
  - rewrite <- app_comm_cons, !dispatch_cons, IH. reflexivity.
Qed.

(** The three ways through [extractEvents]: the start branch whenever the
    kind is start-ish, the end branch when it is end-ish only, the move
    branch when it is neither. *)
Ltac by_class vm t id e s :=
  let Hs := fresh "Hs" in
  let He := fresh "He" in
  destruct (isStartish t) eqn:Hs;
  [ rewrite (extractEvents_start vm t id e s Hs)
  | destruct (isEndish t) eqn:He;
    [ rewrite (extractEvents_end vm t id e s Hs He)
    | rewrite (extractEvents_move vm t id e s Hs He) ] ].

Lemma extractEvents_between_calls vm t id e s :
  between_calls s -> between_calls (snd (extractEvents vm t id e s)).
Proof.
  intros Hinv. pose proof Hinv as (Hend & Hstart & Horigin).
  by_class vm t id e s.
  - destruct (ignored _ _); [exact Hinv |].
    cbn. split; [exact Hend |]. split; [right; reflexivity |].
    right. split; discriminate.
  - destruct (ignored _ _); [exact Hinv |].
    cbn. split; [reflexivity |]. split; [left; reflexivity |].
    right. split; discriminate.
  - destruct (_ && _); [| exact Hinv].
    destruct (distance_geb _ _); [| exact Hinv].
    cbn. split; [exact Hend |]. split; [exact Hstart |].
    right. split; discriminate.
Qed.

Lemma dispatch_between_calls calls s :
  between_calls s -> between_calls (snd (dispatch calls s)).
Proof.
  revert s. induction calls as [| c calls IH]; intros s Hinv; [exact Hinv |].
  rewrite dispatch_cons. cbn [snd]. apply IH, extractEvents_between_calls, Hinv.
Qed.

Lemma initial_between_calls : between_calls initial.
Proof.
  split; [reflexivity |]. split; [left; reflexivity | left; reflexivity].
Qed.

(** X1: [Time.end] is only ever nonzero inside a call: after any sequence of
    calls on a freshly loaded module it is [0] again, and [Time.start] is
    either [0] or the time stamp of the last accepted start-class event. *)
Theorem clock_between_calls calls :
  end_ (Time (snd (dispatch calls initial))) = 0 /\
  (start (Time (snd (dispatch calls initial))) = 0 \/
   lastStartTouchEvent (snd (dispatch calls initial)) =
     Some (start (Time (snd (dispatch calls initial))))).
Proof.
  destruct (dispatch_between_calls calls initial initial_between_calls)
    as (Hend & Hstart & _).
  split; assumption.
Qed.

(** X2: the origin holds [null] only on a module that has not yet accepted
    any start-class or end-class event: after any sequence of calls on a
    freshly loaded module, either no module variable has changed or both
    coordinates of the origin are set. *)
Theorem origin_null_only_initially calls :
  snd (dispatch calls initial) = initial \/
  (is_Some (x (startCoords (snd (dispatch calls initial)))) /\
   is_Some (y (startCoords (snd (dispatch calls initial))))).
Proof.
  destruct (dispatch_between_calls calls initial initial_between_calls)
    as (_ & _ & [Hinit | [Hx Hy]]); [left; exact Hinit | right].
  split; apply not_eq_None_Some; assumption.
Qed.

(** X3: what a call can return.  A single event is a tap-start from a
    start-class event or a tap-end from a move-class event at or beyond the
    threshold; an array comes from an end-class event only and is
    [[tap-end]] or [[tap-end, tap]]; a tap is never returned without the
    tap-end before it, and only within the time window and strictly below
    the move threshold.  Every returned event carries the target id and the
    native event of the call. *)
Theorem returned_events vm t id e s :
  match fst (extractEvents vm t id e s) with
  | Null => True
  | Single event =>
      (event = tapStartEvent id e /\ isStartish t = true) \/
      (event = tapEndEvent id e /\ isStartish t = false /\ isEndish t = false /\
       distance_ge (getDistance vm (startCoords s) e) tapMoveThreshold)
  | Array events =>
      isStartish t = false /\ isEndish t = true /\
      (events = [tapEndEvent id e] \/
       (events = [tapEndEvent id e; tapEvent id e] /\
        getTime e - start (Time s) <= tapTimeThreshold /\
        distance_lt (getDistance vm (startCoords s) e) tapMoveThreshold))
  end.
Proof.
  by_class vm t id e s.
  - destruct (ignored _ _); cbn; [exact I | left; split; reflexivity].
  - destruct (ignored _ _); cbn; [exact I |].
    split; [reflexivity |]. split; [reflexivity |].
    unfold end_events, getTime.
    destruct (Z.ltb_spec tapTimeThreshold (timeStamp e - start (Time s))) as [Hd | Hd];
      [left; reflexivity |].
    destruct (distance_ltb _ _) eqn:Hlt; [| left; reflexivity].
    right. split; [reflexivity |]. split; [exact Hd |].
    apply distance_ltb_spec. exact Hlt.
  - destruct (_ && _); cbn; [| exact I].
    destruct (distance_geb _ _) eqn:Hge; cbn; [| exact I].
    right. split; [reflexivity |]. split; [reflexivity |]. split; [reflexivity |].
    apply distance_geb_spec. exact Hge.
Qed.

Lemma map_Null_nothing calls :
  map (fun _ : Call => Null) calls = nothing (length calls).
Proof.
  induction calls as [| c calls IH]; [reflexivity |]. cbn. rewrite IH. reflexivity.
Qed.

(** X4: in a run of move-class events the gesture is aborted at most once.
    Either every call returns nothing and the state is untouched, or exactly
    one call returns a single tap-end, every call before and after it
    returns nothing, and the only change to the state is the cleared
    origin. *)
Theorem moves_abort_at_most_once calls s :
  Forall is_move calls ->
  dispatch calls s = (nothing (length calls), s) \/
  exists before c after,
    calls = before ++ c :: after /\
    dispatch calls s =
      (nothing (length before) ++
         Single (tapEndEvent (targetID c) (native c)) :: nothing (length after),
       set_startCoords cleared s).
Proof.
  intros Hmoves. induction Hmoves as [| c calls [Hs He] Hmoves IH]; [left; reflexivity |].
  rewrite dispatch_cons, (extractEvents_move _ _ _ _ s Hs He).
  destruct (_ && _).
  - destruct (distance_geb _ _).
    + right. exists [], c, calls. split; [reflexivity |]. cbn [fst snd].
      rewrite (dispatch_moves_ignored calls (set_startCoords cleared s));
        [| left; reflexivity | exact Hmoves].
      cbn [fst snd]. rewrite map_Null_nothing. reflexivity.
    + cbn [fst snd]. destruct IH as [-> | (before & c' & after & -> & ->)].
      * left. reflexivity.
      * right. exists (c :: before), c', after. split; reflexivity.
  - cbn [fst snd]. destruct IH as [-> | (before & c' & after & -> & ->)].
    + left. reflexivity.
    + right. exists (c :: before), c', after. split; reflexivity.
Qed.

(** X5: delivering the same start-class or end-class event a second time
    does nothing, provided its time stamp is not [0]: the second call
    returns nothing and leaves the state as the first call left it. *)
Theorem redelivery_ignored vm t id e s :
  isStartish t = true \/ isEndish t = true ->
  timeStamp e <> 0 ->
  extractEvents vm t id e (snd (extractEvents vm t id e s)) =
    (Null, snd (extractEvents vm t id e s)).
Proof.
  intros Hclass Hts.
  assert (Hagain : ignored (Some (timeStamp e)) e = true).
  { apply ignored_true_iff. exists (timeStamp e).
    split; [reflexivity |]. split; [exact Hts |]. unfold ignoreMouseThreshold. lia. }
  destruct (isStartish t) eqn:Hs; [| destruct (isEndish t) eqn:He].
  - rewrite (extractEvents_start vm t id e s Hs).
    destruct (ignored (lastStartTouchEvent s) e) eqn:Hig; cbn [snd].
    + rewrite (extractEvents_start vm t id e s Hs), Hig. reflexivity.
    + rewrite (extractEvents_start vm t id e _ Hs).
      cbn [armed_by lastStartTouchEvent]. rewrite Hagain. reflexivity.
  - rewrite (extractEvents_end vm t id e s Hs He).
    destruct (ignored (lastEndTouchEvent s) e) eqn:Hig; cbn [snd].
    + rewrite (extractEvents_end vm t id e s Hs He), Hig. reflexivity.
    + rewrite (extractEvents_end vm t id e _ Hs He).
      cbn [resolved_by lastEndTouchEvent]. rewrite Hagain. reflexivity.
  - destruct Hclass; discriminate.
Qed.

(** X6: press and release in place.  An accepted start-class event followed
    by an accepted end-class event at the same page position returns a
    tap-start, then a tap-end, and a tap exactly when the two time stamps
    are at most [tapTimeThreshold] apart: a release exactly 2000 after the
    press is still a tap. *)
Theorem press_and_release_in_place s vm0 t0 id0 e0 vm1 t1 id1 e1 (px py : Z) :
  isStartish t0 = true -> ignored (lastStartTouchEvent s) e0 = false ->
  isStartish t1 = false -> isEndish t1 = true ->
  ignored (lastEndTouchEvent s) e1 = false ->
  getAxisCoordOfEvent vm0 Axis.x e0 = Num px ->
  getAxisCoordOfEvent vm0 Axis.y e0 = Num py ->
  getAxisCoordOfEvent vm1 Axis.x e1 = Num px ->
  getAxisCoordOfEvent vm1 Axis.y e1 = Num py ->
  fst (dispatch [mkCall vm0 t0 id0 e0; mkCall vm1 t1 id1 e1] s) =
    [Single (tapStartEvent id0 e0);
     Array (tapEndEvent id1 e1 ::
            if getTime e1 - getTime e0 <=? tapTimeThreshold
            then [tapEvent id1 e1] else [])].
Proof.
  intros Hs0 Hp0 Hs1 He1 Hp1 Hx0 Hy0 Hx1 Hy1.
  rewrite !dispatch_cons. cbn [viewport kind targetID native dispatch fst snd].
  rewrite (extractEvents_start vm0 t0 id0 e0 s Hs0), Hp0. cbn [fst snd].
  rewrite (extractEvents_end vm1 t1 id1 e1 _ Hs1 He1).
  cbn [armed_by lastEndTouchEvent]. rewrite Hp1. cbn [fst].
  unfold end_events, getDistance, getTime.
  cbn [armed_by startCoords Time start x y ToNumber].
  rewrite Hx0, Hy0, Hx1, Hy1. cbn [num_sub pow2 num_add].
  replace ((px - px) * (px - px) + (py - py) * (py - py)) with 0 by lia.
  rewrite Z.ltb_antisym.
  destruct (timeStamp e1 - timeStamp e0 <=? tapTimeThreshold); reflexivity.
Qed.

(** X7: [getAxisCoordOfEvent] yields not-a-number exactly when the property
    it reads is missing: the touch point has no page coordinate, or the
    event has neither a touch point nor a page coordinate and lacks the
    client coordinate or the viewport lacks the scroll offset. *)
Theorem axis_coord_missing vm (axis : AxisDesc) e :
  getAxisCoordOfEvent vm axis e = NaN <->
  (exists touch, extractSingleTouch e = Some touch /\ touch !! page axis = None) \/
  (extractSingleTouch e = None /\ props e !! page axis = None /\
   (props e !! client axis = None \/ vm !! envScroll axis = None)).
Proof.
  unfold getAxisCoordOfEvent, get.
  destruct (extractSingleTouch e) as [touch |].
  - destruct (touch !! page axis) eqn:Hp; split.
    + discriminate.
    + intros [(touch' & Ht & Hn) | (Ht & _)]; [| discriminate].
      inversion Ht; subst. congruence.
    + intros _. left. eauto.
    + reflexivity.
  - destruct (props e !! page axis); [split; [discriminate |] |].
    + intros [(touch & Ht & _) | (_ & Hp & _)]; discriminate.
    + destruct (props e !! client axis), (vm !! envScroll axis); cbn; split;
        try discriminate; try reflexivity;
        try (intros _; right; auto);
        intros [(touch & Ht & _) | (_ & _ & [Hn | Hn])]; discriminate.
Qed.

Lemma getDistance_NaN vm (c : Coords) e :
  getAxisCoordOfEvent vm Axis.x e = NaN \/ getAxisCoordOfEvent vm Axis.y e = NaN ->
  radicand (getDistance vm c e) = NaN.
Proof.
  unfold getDistance. cbn [radicand]. intros [-> | ->]; [reflexivity |].
  cbn. destruct (pow2 _); reflexivity.
Qed.

Lemma getDistance_NaN_origin vm (c : Coords) e :
  x c = Some NaN \/ y c = Some NaN ->
  radicand (getDistance vm c e) = NaN.
Proof.
  unfold getDistance. cbn [radicand]. intros [-> | ->]; cbn.
  - destruct (getAxisCoordOfEvent vm Axis.x e); reflexivity.
  - destruct (getAxisCoordOfEvent vm Axis.y e); cbn; destruct (pow2 _); reflexivity.
Qed.

Lemma distance_NaN_compares_false (d : distance) (t : Z) :
  radicand d = NaN -> distance_geb d t = false /\ distance_ltb d t = false.
Proof.
  unfold distance_geb, distance_ltb. intros ->. split; reflexivity.
Qed.

Lemma end_events_no_distance vm id e s :
  radicand (getDistance vm (startCoords s) e) = NaN ->
  end_events vm id e s = [tapEndEvent id e].
Proof.
  intros Hd. unfold end_events.
  destruct (distance_NaN_compares_false _ tapMoveThreshold Hd) as [_ ->].
  destruct (_ <? _); reflexivity.
Qed.

Lemma dispatch_moves_falsy calls s :
  ToBoolean (x (startCoords s)) && ToBoolean (y (startCoords s)) = false ->
  Forall is_move calls ->
  dispatch calls s = (nothing (length calls), s).
Proof.
  intros Hfalsy Hmoves.
  induction Hmoves as [| c calls [Hs He] _ IH]; [reflexivity |].
  rewrite dispatch_cons, (extractEvents_move _ _ _ _ s Hs He), Hfalsy. cbn [fst snd].
  rewrite IH. reflexivity.
Qed.

(** X8: an event without a page position can neither abort nor confirm a
    gesture.  When one of its coordinates is not a number, a move-class
    event returns nothing and changes no state, and an accepted end-class
    event returns the tap-end alone.  When an accepted start-class event
    captures such an origin, every run of move-class events that follows it
    returns nothing and changes no state, and an accepted end-class event
    delivered right after the start or after such a run returns the tap-end
    alone, wherever it is. *)
Theorem missing_coordinate_never_taps vm t id e s :
  getAxisCoordOfEvent vm Axis.x e = NaN \/ getAxisCoordOfEvent vm Axis.y e = NaN ->
  (isStartish t = false -> isEndish t = false ->
   extractEvents vm t id e s = (Null, s)) /\
  (isStartish t = false -> isEndish t = true ->
   ignored (lastEndTouchEvent s) e = false ->
   fst (extractEvents vm t id e s) = Array [tapEndEvent id e]) /\
  (isStartish t = true -> ignored (lastStartTouchEvent s) e = false ->
   forall vm' t' id' e',
     isStartish t' = false ->
     (isEndish t' = false ->
      extractEvents vm' t' id' e' (snd (extractEvents vm t id e s)) =
        (Null, snd (extractEvents vm t id e s))) /\
     (isEndish t' = true -> ignored (lastEndTouchEvent s) e' = false ->
      fst (extractEvents vm' t' id' e' (snd (extractEvents vm t id e s))) =
        Array [tapEndEvent id' e'])) /\
  (isStartish t = true -> ignored (lastStartTouchEvent s) e = false ->
   forall calls vm' t' id' e',
     Forall is_move calls ->
     dispatch calls (snd (extractEvents vm t id e s)) =
       (nothing (length calls), snd (extractEvents vm t id e s)) /\
     (isStartish t' = false -> isEndish t' = true ->
      ignored (lastEndTouchEvent s) e' = false ->
      fst (extractEvents vm' t' id' e'
             (snd (dispatch calls (snd (extractEvents vm t id e s))))) =
        Array [tapEndEvent id' e'])).
Proof.
  intros Hnan.
  assert (Horigin : x (startCoords (armed_by vm e s)) = Some NaN \/
                    y (startCoords (armed_by vm e s)) = Some NaN).
  { cbn. destruct Hnan as [-> | ->]; auto. }
  assert (Hfalsy : ToBoolean (x (startCoords (armed_by vm e s))) &&
                   ToBoolean (y (startCoords (armed_by vm e s))) = false).
  { destruct Horigin as [-> | ->]; cbn [ToBoolean andb]; [reflexivity |].
    apply andb_false_r. }
  split; [| split; [| split]]; cycle 3.
  { intros Hs Hpass calls vm' t' id' e' Hmoves.
    rewrite (extractEvents_start vm t id e s Hs), Hpass. cbn [snd].
    rewrite (dispatch_moves_falsy calls _ Hfalsy Hmoves). cbn [snd].
    split; [reflexivity |]. intros Hs' He' Hpass'.
    rewrite (extractEvents_end vm' t' id' e' _ Hs' He').
    cbn [armed_by lastEndTouchEvent]. rewrite Hpass'. cbn [fst].
    rewrite end_events_no_distance; [reflexivity |].
    apply getDistance_NaN_origin, Horigin. }
  - intros Hs He. rewrite (extractEvents_move vm t id e s Hs He).
    destruct (distance_NaN_compares_false _ tapMoveThreshold
                (getDistance_NaN vm (startCoords s) e Hnan)) as [-> _].
    destruct (ToBoolean (x (startCoords s)) && ToBoolean (y (startCoords s)));
      reflexivity.
  - intros Hs He Hpass. rewrite (extractEvents_end vm t id e s Hs He), Hpass.
    cbn [fst]. rewrite end_events_no_distance; [reflexivity |].
    apply getDistance_NaN, Hnan.
  - intros Hs Hpass vm' t' id' e' Hs'.
    rewrite (extractEvents_start vm t id e s Hs), Hpass. cbn [snd].
    split.
    + intros He'. rewrite (extractEvents_move vm' t' id' e' _ Hs' He'), Hfalsy.
      reflexivity.
    + intros He' Hpass'. rewrite (extractEvents_end vm' t' id' e' _ Hs' He').
      cbn [armed_by lastEndTouchEvent]. rewrite Hpass'. cbn [fst].
      rewrite end_events_no_distance; [reflexivity |].
      apply getDistance_NaN_origin, Horigin.
Qed.

Lemma getAxisCoordOfEvent_client vm (axis : AxisDesc) e (c o : Z) :
  extractSingleTouch e = None -> props e !! page axis = None ->
  props e !! client axis = Some c -> vm !! envScroll axis = Some o ->
  getAxisCoordOfEvent vm axis e = Num (c + o).
Proof.
  intros Ht Hp Hc Ho. unfold getAxisCoordOfEvent, get. rewrite Ht, Hp, Hc, Ho. reflexivity.
Qed.

(** X9: for events that only report client coordinates, scrolling counts as
    movement.  A press and a release at the same client position, with the
    page scrolled by [(dl, dt)] in between, are [sqrt (dl^2 + dt^2)] apart:
    the release returns a tap only if it is in time and the page scrolled by
    less than [tapMoveThreshold]. *)
Theorem scroll_counts_as_movement s vm0 t0 id0 e0 vm1 t1 id1 e1 (cx cy l0 o0 l1 o1 : Z) :
  isStartish t0 = true -> ignored (lastStartTouchEvent s) e0 = false ->
  isStartish t1 = false -> isEndish t1 = true ->
  ignored (lastEndTouchEvent s) e1 = false ->
  extractSingleTouch e0 = None -> extractSingleTouch e1 = None ->
  props e0 !! "pageX" = None -> props e0 !! "pageY" = None ->
  props e1 !! "pageX" = None -> props e1 !! "pageY" = None ->
  props e0 !! "clientX" = Some cx -> props e0 !! "clientY" = Some cy ->
  props e1 !! "clientX" = Some cx -> props e1 !! "clientY" = Some cy ->
  vm0 !! "currentPageScrollLeft" = Some l0 -> vm0 !! "currentPageScrollTop" = Some o0 ->
  vm1 !! "currentPageScrollLeft" = Some l1 -> vm1 !! "currentPageScrollTop" = Some o1 ->
  getDistance vm1 (startCoords (snd (extractEvents vm0 t0 id0 e0 s))) e1 =
    Sqrt (Num ((l1 - l0) * (l1 - l0) + (o1 - o0) * (o1 - o0))) /\
  fst (extractEvents vm1 t1 id1 e1 (snd (extractEvents vm0 t0 id0 e0 s))) =
    Array (tapEndEvent id1 e1 ::
           if (getTime e1 - getTime e0 <=? tapTimeThreshold) &&
              ((l1 - l0) * (l1 - l0) + (o1 - o0) * (o1 - o0)
                 <? tapMoveThreshold * tapMoveThreshold)
           then [tapEvent id1 e1] else []).
Proof.
  intros Hs0 Hp0 Hs1 He1 Hp1 Ht0 Ht1 Hpx0 Hpy0 Hpx1 Hpy1 Hcx0 Hcy0 Hcx1 Hcy1
         Hl0 Ho0 Hl1 Ho1.
  pose proof (getAxisCoordOfEvent_client vm0 Axis.x e0 cx l0 Ht0 Hpx0 Hcx0 Hl0) as Hx0.
  pose proof (getAxisCoordOfEvent_client vm0 Axis.y e0 cy o0 Ht0 Hpy0 Hcy0 Ho0) as Hy0.
  pose proof (getAxisCoordOfEvent_client vm1 Axis.x e1 cx l1 Ht1 Hpx1 Hcx1 Hl1) as Hx1.
  pose proof (getAxisCoordOfEvent_client vm1 Axis.y e1 cy o1 Ht1 Hpy1 Hcy1 Ho1) as Hy1.
  rewrite (extractEvents_start vm0 t0 id0 e0 s Hs0), Hp0. cbn [snd].
  assert (Hd : getDistance vm1 (startCoords (armed_by vm0 e0 s)) e1 =
               Sqrt (Num ((l1 - l0) * (l1 - l0) + (o1 - o0) * (o1 - o0)))).
  { unfold getDistance. cbn [armed_by startCoords x y ToNumber].
    rewrite Hx0, Hy0, Hx1, Hy1. cbn [num_sub pow2 num_add].
    do 2 f_equal. ring. }
  split; [exact Hd |].
  rewrite (extractEvents_end vm1 t1 id1 e1 _ Hs1 He1).
  cbn [armed_by lastEndTouchEvent]. rewrite Hp1. cbn [fst].
  unfold end_events. fold (armed_by vm0 e0 s). rewrite Hd.
  unfold getTime. cbn [armed_by Time start]. rewrite Z.ltb_antisym.
  destruct (timeStamp e1 - timeStamp e0 <=? tapTimeThreshold); cbn [negb andb];
    [| reflexivity].
  unfold distance_ltb. cbn [radicand].
  pose proof (Z.square_nonneg (l1 - l0)) as Hl.
  pose proof (Z.square_nonneg (o1 - o0)) as Ho.
  destruct (Z.leb_spec 0 ((l1 - l0) * (l1 - l0) + (o1 - o0) * (o1 - o0))); [| lia].
  cbn. destruct (_ <? _); reflexivity.
Qed.

(** X10: the viewport's scroll offsets matter only to events that report
    client coordinates alone.  For an event with a touch point, or with both
    page coordinates of its own, a call returns the same events and leaves
    the same state whatever [ViewportMetrics] holds. *)
Theorem viewport_irrelevant_with_page_position vm vm' t id e s :
  is_Some (extractSingleTouch e) \/
  (is_Some (props e !! "pageX") /\ is_Some (props e !! "pageY")) ->
  extractEvents vm t id e s = extractEvents vm' t id e s.
Proof.
  intros Hpage.
  assert (Hcoord : getAxisCoordOfEvent vm Axis.x e = getAxisCoordOfEvent vm' Axis.x e /\
                   getAxisCoordOfEvent vm Axis.y e = getAxisCoordOfEvent vm' Axis.y e).
  { unfold getAxisCoordOfEvent. cbn [page Axis.x Axis.y].
    destruct Hpage as [[touch ->] | [[px ->] [py ->]]]; [split; reflexivity |].
    destruct (extractSingleTouch e); split; reflexivity. }
  destruct Hcoord as [Hx Hy].
  unfold extractEvents, getDistance. rewrite Hx, Hy. reflexivity.
Qed.

Lemma distance_geb_negb_ltb (q : Z) :
  0 <= q ->
  distance_geb (Sqrt (Num q)) tapMoveThreshold =
    negb (distance_ltb (Sqrt (Num q)) tapMoveThreshold).
Proof.
  intros Hq. unfold distance_geb, distance_ltb, tapMoveThreshold. cbn [radicand].
  destruct (Z.leb_spec 0 q); [| lia]. cbn.
  rewrite Z.leb_antisym. reflexivity.
Qed.

(** X11: the two threshold tests split the page the same way.  For an armed
    origin and an event with a page position, a move-class event at that
    position aborts the gesture exactly when an accepted end-class event at
    that position, in time, would return the tap-end without a tap. *)
Theorem abort_iff_no_tap vm t t' id e s (px py : Z) :
  ToBoolean (x (startCoords s)) && ToBoolean (y (startCoords s)) = true ->
  getAxisCoordOfEvent vm Axis.x e = Num px ->
  getAxisCoordOfEvent vm Axis.y e = Num py ->
  isStartish t = false -> isEndish t = false ->
  isStartish t' = false -> isEndish t' = true ->
  ignored (lastEndTouchEvent s) e = false ->
  getTime e - start (Time s) <= tapTimeThreshold ->
  fst (extractEvents vm t id e s) = Single (tapEndEvent id e) <->
  fst (extractEvents vm t' id e s) = Array [tapEndEvent id e].
Proof.
  intros Harmed Hx Hy Hs He Hs' He' Hpass Hd.
  rewrite (extractEvents_move vm t id e s Hs He), Harmed.
  rewrite (extractEvents_end vm t' id e s Hs' He'), Hpass. cbn [fst].
  rewrite end_events_in_time by exact Hd.
  apply andb_true_iff in Harmed as [Hox Hoy].
  destruct (x (startCoords s)) as [[ox |] |] eqn:Ex; try discriminate Hox.
  destruct (y (startCoords s)) as [[oy |] |] eqn:Ey; try discriminate Hoy.
  unfold getDistance. rewrite Hx, Hy, Ex, Ey. cbn [ToNumber num_sub pow2 num_add].
  rewrite distance_geb_negb_ltb
    by (pose proof (Z.square_nonneg (px - ox)); pose proof (Z.square_nonneg (py - oy)); lia).
  destruct (distance_ltb _ _); cbn; split; (reflexivity || discriminate).
Qed.

Lemma not_start_keeps_lastStart vm t id e s :
  isStartish t = false ->
  lastStartTouchEvent (snd (extractEvents vm t id e s)) = lastStartTouchEvent s.
Proof.
  intros Hs. destruct (isEndish t) eqn:He.
  - rewrite (extractEvents_end vm t id e s Hs He). destruct (ignored _ _); reflexivity.
  - rewrite (extractEvents_move vm t id e s Hs He).
    destruct (_ && _); [destruct (distance_geb _ _) |]; reflexivity.
Qed.

Lemma dispatch_keeps_lastStart calls s :
  Forall (fun c => isStartish (kind c) = false) calls ->
  lastStartTouchEvent (snd (dispatch calls s)) = lastStartTouchEvent s.
Proof.
  intros Hcalls. revert s.
  induction Hcalls as [| c calls Hs _ IH]; intros s; [reflexivity |].
  rewrite dispatch_cons. cbn [snd]. rewrite IH. apply not_start_keeps_lastStart, Hs.
Qed.

(** X12: accepted start-class events are at least [ignoreMouseThreshold]
    apart.  After an accepted start-class event with a nonzero time stamp,
    and whatever end-class and move-class events are delivered in between,
    the next start-class event returns something exactly when its time
    stamp is 350 or more after the accepted one. *)
Theorem accepted_starts_are_spaced vm t id e s calls vm' t' id' e' :
  isStartish t = true ->
  ignored (lastStartTouchEvent s) e = false ->
  timeStamp e <> 0 ->
  Forall (fun c => isStartish (kind c) = false) calls ->
  isStartish t' = true ->
  fst (extractEvents vm' t' id' e'
         (snd (dispatch calls (snd (extractEvents vm t id e s))))) <> Null <->
  ignoreMouseThreshold <= timeStamp e' - timeStamp e.
Proof.
  intros Hs Hpass Hts Hcalls Hs'.
  rewrite (extractEvents_start vm' t' id' e' _ Hs'), (dispatch_keeps_lastStart _ _ Hcalls).
  rewrite (extractEvents_start vm t id e s Hs), Hpass. cbn [snd armed_by lastStartTouchEvent].
  unfold ignored. apply Z.eqb_neq in Hts. rewrite Hts. cbn [negb andb].
  destruct (Z.ltb_spec (timeStamp e' - timeStamp e) ignoreMouseThreshold); cbn [fst];
    split; intros H'; try lia; try congruence; discriminate.
Qed.

Lemma quiet_moves_keep_state calls s :
  Forall is_move calls ->
  fst (dispatch calls s) = nothing (length calls) ->
  snd (dispatch calls s) = s.
Proof.
  intros Hmoves. induction Hmoves as [| c calls [Hs He] _ IH]; [reflexivity |].
  rewrite dispatch_cons, (extractEvents_move _ _ _ _ s Hs He). cbn [length nothing repeat].
  destruct (_ && _); [destruct (distance_geb _ _) |]; cbn [fst snd]; intros Hquiet;
    try discriminate Hquiet; apply IH; inversion Hquiet as [Htail]; exact Htail.
Qed.

(** X13: move-class events that do not abort the gesture are invisible to
    what follows.  When a run of move-class calls returns nothing, the calls
    delivered after it return the same events and lead to the same state as
    if the run had not been delivered. *)
Theorem quiet_moves_invisible calls rest s :
  Forall is_move calls ->
  fst (dispatch calls s) = nothing (length calls) ->
  dispatch (calls ++ rest) s =
    (nothing (length calls) ++ fst (dispatch rest s), snd (dispatch rest s)).
Proof.
  intros Hmoves Hquiet.
  rewrite dispatch_app, Hquiet, (quiet_moves_keep_state calls s Hmoves Hquiet).
  reflexivity.
Qed.

(** X14: a second tap that follows the first too quickly is swallowed.
    After an accepted start-class and an accepted end-class event with
    nonzero time stamps, a second start-class event less than 350 after the
    first and a second end-class event less than 350 after the first both
    return nothing and change no state. *)
Theorem quick_second_tap_swallowed s c1 c2 c3 c4 :
  isStartish (kind c1) = true ->
  ignored (lastStartTouchEvent s) (native c1) = false ->
  timeStamp (native c1) <> 0 ->
  isStartish (kind c2) = false -> isEndish (kind c2) = true ->
  ignored (lastEndTouchEvent s) (native c2) = false ->
  timeStamp (native c2) <> 0 ->
  isStartish (kind c3) = true ->
  timeStamp (native c3) - timeStamp (native c1) < ignoreMouseThreshold ->
  isStartish (kind c4) = false -> isEndish (kind c4) = true ->
  timeStamp (native c4) - timeStamp (native c2) < ignoreMouseThreshold ->
  dispatch [c3; c4] (snd (dispatch [c1; c2] s)) =
    ([Null; Null], snd (dispatch [c1; c2] s)).
Proof.
  intros Hs1 Hp1 Hts1 Hs2 He2 Hp2 Hts2 Hs3 Hlt3 Hs4 He4 Hlt4.
  assert (Hafter : snd (dispatch [c1; c2] s) =
                   resolved_by (native c2) (armed_by (viewport c1) (native c1) s)).
  { rewrite !dispatch_cons. cbn [dispatch snd].
    rewrite (extractEvents_start _ _ _ _ s Hs1), Hp1. cbn [snd].
    rewrite (extractEvents_end _ _ _ _ _ Hs2 He2).
    cbn [armed_by lastEndTouchEvent]. rewrite Hp2. reflexivity. }
  rewrite Hafter, !dispatch_cons. cbn [dispatch fst snd].
  assert (Hig3 : ignored (Some (timeStamp (native c1))) (native c3) = true).
  { apply ignored_true_iff. eauto. }
  assert (Hig4 : ignored (Some (timeStamp (native c2))) (native c4) = true).
  { apply ignored_true_iff. eauto. }
  rewrite (extractEvents_start _ _ _ _ _ Hs3).
  cbn [resolved_by armed_by lastStartTouchEvent]. rewrite Hig3. cbn [fst snd].
  rewrite (extractEvents_end _ _ _ _ _ Hs4 He4).
  cbn [resolved_by lastEndTouchEvent]. rewrite Hig4. reflexivity.
Qed.

End Traces.

(** ** The recogniser in a browser: concrete runs *)

#[local] Existing Instances browserTouch touchBrowser.

Lemma start_event_arms_witness :
  isStartish topTouchStart = true /\
  ignored (lastStartTouchEvent initial) (touchEvent 12 34 5000) = false /\
  fst (extractEvents ∅ topTouchStart "root" (touchEvent 12 34 5000) initial) =
    Single (tapStartEvent "root" (touchEvent 12 34 5000)) /\
  start (Time (snd (extractEvents ∅ topTouchStart "root" (touchEvent 12 34 5000) initial)))
    = 5000 /\
  startCoords (snd (extractEvents ∅ topTouchStart "root" (touchEvent 12 34 5000) initial))
    = {| x := Some (Num 12); y := Some (Num 34) |}.
Proof.
  split; [reflexivity |]. split; [reflexivity |].
  destruct (@start_event_arms touchBrowser browserTouch
              ∅ topTouchStart "root" (touchEvent 12 34 5000) initial
              eq_refl eq_refl) as (Hr & Ht & Hc & _).
  split; [exact Hr |]. split; [exact Ht | exact Hc].
Defined.

Lemma end_event_emits_witness :
  (isStartish topMouseUp = false /\ isEndish topMouseUp = true /\
   ignored (lastEndTouchEvent (armed_by ∅ (mouseEvent 0 0 0) initial))
           (mouseEvent 3 4 100) = false /\
   fst (extractEvents ∅ topMouseUp "root" (mouseEvent 3 4 100)
          (armed_by ∅ (mouseEvent 0 0 0) initial)) =
     Array [tapEndEvent "root" (mouseEvent 3 4 100);
            tapEvent "root" (mouseEvent 3 4 100)] /\
   fst (extractEvents ∅ topMouseUp "root" (mouseEvent 0 0 2500)
          (armed_by ∅ (mouseEvent 0 0 0) initial)) =
     Array [tapEndEvent "root" (mouseEvent 0 0 2500)] /\
   fst (extractEvents ∅ topMouseUp "root" (mouseEvent 30 40 100)
          (armed_by ∅ (mouseEvent 0 0 0) initial)) =
     Array [tapEndEvent "root" (mouseEvent 30 40 100)]) /\
  fst (dispatch [mkCall ∅ topMouseDown "root" (mouseEvent 0 0 0);
                 mkCall ∅ topMouseUp "root" (mouseEvent 3 4 100)] initial) =
    [Single (tapStartEvent "root" (mouseEvent 0 0 0));
     Array [tapEndEvent "root" (mouseEvent 3 4 100);
            tapEvent "root" (mouseEvent 3 4 100)]] /\
  (real_distance
     (getDistance ∅ (startCoords (armed_by ∅ (mouseEvent 100 100 1000) initial))
        (mouseEvent 103 104 1100)) =
     Some (sqrt (IZR ((103 - 100) * (103 - 100) + (104 - 100) * (104 - 100)))) /\
   fst (extractEvents ∅ topMouseUp "root" (mouseEvent 103 104 1100)
          (armed_by ∅ (mouseEvent 100 100 1000) initial)) =
     Array [tapEndEvent "root" (mouseEvent 103 104 1100);
            tapEvent "root" (mouseEvent 103 104 1100)] /\
   fst (extractEvents ∅ topMouseUp "root" (mouseEvent 3 4 1100)
          (armed_by ∅ (mouseEvent 100 100 1000) initial)) =
     Array [tapEndEvent "root" (mouseEvent 3 4 1100)]) /\
  (fst (dispatch [mkCall ∅ topMouseDown "root" (mouseEvent 100 100 1000);
                  mkCall ∅ topMouseUp "root" (mouseEvent 100 100 1100)] initial) =
     [Single (tapStartEvent "root" (mouseEvent 100 100 1000));
      Array [tapEndEvent "root" (mouseEvent 100 100 1100);
             tapEvent "root" (mouseEvent 100 100 1100)]] /\
   fst (dispatch [mkCall ∅ topTouchStart "root" (touchEvent 100 100 1000);
                  mkCall ∅ topMouseUp "root" (mouseEvent 3 4 1100)] initial) =
     [Single (tapStartEvent "root" (touchEvent 100 100 1000));
      Array [tapEndEvent "root" (mouseEvent 3 4 1100)]]).
Proof.
  destruct (@end_event_emits touchBrowser browserTouch)
    as (Hend & Hscenario & Horigin & Htrace).
  pose (s0 := armed_by ∅ (mouseEvent 0 0 0) initial).
  pose (s1 := armed_by ∅ (mouseEvent 100 100 1000) initial).
  split; [| split; [| split]].
  - split; [reflexivity |]. split; [reflexivity |]. split; [reflexivity |].
    split; [| split].
    + destruct (Hend ∅ topMouseUp "root" (mouseEvent 3 4 100) s0
                  eq_refl eq_refl eq_refl) as (_ & Htap & _).
      apply Htap.
      * vm_compute. discriminate.
      * apply distance_ltb_spec. vm_compute. reflexivity.
    + destruct (Hend ∅ topMouseUp "root" (mouseEvent 0 0 2500) s0
                  eq_refl eq_refl eq_refl) as (Hlate & _).
      apply Hlate. vm_compute. reflexivity.
    + destruct (Hend ∅ topMouseUp "root" (mouseEvent 30 40 100) s0
                  eq_refl eq_refl eq_refl) as (_ & _ & Hfar).
      apply Hfar.
      * vm_compute. discriminate.
      * intros Hlt. apply distance_ltb_spec in Hlt. vm_compute in Hlt. discriminate.
  - apply (Hscenario initial ∅ topMouseDown "root" (mouseEvent 0 0 0)
                     ∅ topMouseUp "root" (mouseEvent 3 4 100));
      reflexivity.
  - destruct (Horigin ∅ topMouseUp "root" (mouseEvent 103 104 1100) s1 100 100 103 104
                eq_refl eq_refl eq_refl eq_refl eq_refl eq_refl eq_refl)
      as (Hdist & Hnear).
    destruct (Horigin ∅ topMouseUp "root" (mouseEvent 3 4 1100) s1 100 100 3 4
                eq_refl eq_refl eq_refl eq_refl eq_refl eq_refl eq_refl)
      as (_ & Hfar).
    split; [exact Hdist |]. split.
    + apply Hnear; [discriminate | reflexivity].
    + apply Hfar; discriminate.
  - split.
    + exact (Htrace initial ∅ topMouseDown "root" (mouseEvent 100 100 1000)
               ∅ topMouseUp "root" (mouseEvent 100 100 1100) 100 100 100 100
               eq_refl eq_refl eq_refl eq_refl eq_refl eq_refl eq_refl eq_refl eq_refl).
    + exact (Htrace initial ∅ topTouchStart "root" (touchEvent 100 100 1000)
               ∅ topMouseUp "root" (mouseEvent 3 4 1100) 100 100 3 4
               eq_refl eq_refl eq_refl eq_refl eq_refl eq_refl eq_refl eq_refl eq_refl).
Defined.

(** C2, at a gesture armed on the page edge: a mouse-down at (0, 0), t=0 is
    accepted and arms the gesture; a mouse-move to (20, 0), t=50 is at
    distance 20 >= 10 from the origin and should abort it, yet the plugin
    returns nothing and does not clear the origin. *)
Lemma move_abort_missed_at_zero_origin :
  dispatch [mkCall ∅ topMouseDown "root" (mouseEvent 0 0 0)] initial =
    ([Single (tapStartEvent "root" (mouseEvent 0 0 0))],
     armed_by ∅ (mouseEvent 0 0 0) initial) /\
  distance_ge (getDistance ∅ (startCoords (armed_by ∅ (mouseEvent 0 0 0) initial))
                 (mouseEvent 20 0 50)) tapMoveThreshold /\
  extractEvents ∅ topMouseMove "root" (mouseEvent 20 0 50)
      (armed_by ∅ (mouseEvent 0 0 0) initial) =
    (Null, armed_by ∅ (mouseEvent 0 0 0) initial) /\
  ~ (extractEvents ∅ topMouseMove "root" (mouseEvent 20 0 50)
       (armed_by ∅ (mouseEvent 0 0 0) initial) =
     (Single (tapEndEvent "root" (mouseEvent 20 0 50)),
      set_startCoords cleared (armed_by ∅ (mouseEvent 0 0 0) initial))).
Proof.
  split; [reflexivity |]. split; [| split].
  - apply distance_geb_spec. vm_compute. reflexivity.
  - reflexivity.
  - intros Heq. vm_compute in Heq. discriminate.
Qed.

(** C3, at a last accepted time stamp of 0: a touch-start with time stamp 0
    is accepted and becomes the last accepted start-class event; a
    mouse-down 100 ms later is within the 350 ms window and should be
    dropped, yet the plugin processes it: it returns a second tap-start and
    changes the state. *)
Lemma repeat_after_time_stamp_0_accepted :
  dispatch [mkCall ∅ topTouchStart "root" (touchEvent 5 5 0)] initial =
    ([Single (tapStartEvent "root" (touchEvent 5 5 0))],
     armed_by ∅ (touchEvent 5 5 0) initial) /\
  lastStartTouchEvent (armed_by ∅ (touchEvent 5 5 0) initial) = Some 0 /\
  timeStamp (mouseEvent 5 5 100) - 0 < ignoreMouseThreshold /\
  fst (extractEvents ∅ topMouseDown "root" (mouseEvent 5 5 100)
         (armed_by ∅ (touchEvent 5 5 0) initial)) =
    Single (tapStartEvent "root" (mouseEvent 5 5 100)) /\
  ~ (extractEvents ∅ topMouseDown "root" (mouseEvent 5 5 100)
       (armed_by ∅ (touchEvent 5 5 0) initial) =
     (Null, armed_by ∅ (touchEvent 5 5 0) initial)).
Proof.
  repeat apply conj; try reflexivity.
  intros Heq. vm_compute in Heq. discriminate.
Qed.

(** C4, at a move-abort: a mouse-down at (5, 5), t=1000 followed by a
    mouse-move to (50, 50), t=1050 resolves the gesture: a tap-end is
    returned and the origin is cleared, and the clock should be reset as the
    end branch resets it, yet [Time.start] still holds 1000. *)
Lemma move_abort_keeps_start_time :
  fst (dispatch [mkCall ∅ topMouseDown "root" (mouseEvent 5 5 1000);
                 mkCall ∅ topMouseMove "root" (mouseEvent 50 50 1050)] initial) =
    [Single (tapStartEvent "root" (mouseEvent 5 5 1000));
     Single (tapEndEvent "root" (mouseEvent 50 50 1050))] /\
  startCoords
    (snd (dispatch [mkCall ∅ topMouseDown "root" (mouseEvent 5 5 1000);
                    mkCall ∅ topMouseMove "root" (mouseEvent 50 50 1050)] initial)) =
    {| x := Some (Num 0); y := Some (Num 0) |} /\
  start (Time
    (snd (dispatch [mkCall ∅ topMouseDown "root" (mouseEvent 5 5 1000);
                    mkCall ∅ topMouseMove "root" (mouseEvent 50 50 1050)] initial))) =
    1000 /\
  ~ (start (Time
       (snd (dispatch [mkCall ∅ topMouseDown "root" (mouseEvent 5 5 1000);
                       mkCall ∅ topMouseMove "root" (mouseEvent 50 50 1050)] initial))) =
     0).
Proof.
  repeat apply conj; try reflexivity.
  intros Heq. vm_compute in Heq. discriminate.
Qed.

(** C6, at a gesture armed on the page edge: a mouse-down at (0, 0), t=0 is
    accepted and arms the gesture; a mouse-move to (10, 0), t=50 is at a
    distance exactly equal to [tapMoveThreshold] and should abort it, yet
    the plugin returns nothing and does not clear the origin.  An end-class
    event at the same position returns the tap-end without a tap, as the
    strict comparison requires. *)
Lemma move_at_threshold_missed_at_zero_origin :
  dispatch [mkCall ∅ topMouseDown "root" (mouseEvent 0 0 0)] initial =
    ([Single (tapStartEvent "root" (mouseEvent 0 0 0))],
     armed_by ∅ (mouseEvent 0 0 0) initial) /\
  real_distance (getDistance ∅ (startCoords (armed_by ∅ (mouseEvent 0 0 0) initial))
                   (mouseEvent 10 0 50)) = Some (IZR tapMoveThreshold) /\
  extractEvents ∅ topMouseMove "root" (mouseEvent 10 0 50)
      (armed_by ∅ (mouseEvent 0 0 0) initial) =
    (Null, armed_by ∅ (mouseEvent 0 0 0) initial) /\
  ~ (extractEvents ∅ topMouseMove "root" (mouseEvent 10 0 50)
       (armed_by ∅ (mouseEvent 0 0 0) initial) =
     (Single (tapEndEvent "root" (mouseEvent 10 0 50)),
      set_startCoords cleared (armed_by ∅ (mouseEvent 0 0 0) initial))) /\
  fst (extractEvents ∅ topMouseUp "root" (mouseEvent 10 0 50)
         (armed_by ∅ (mouseEvent 0 0 0) initial)) =
    Array [tapEndEvent "root" (mouseEvent 10 0 50)].
Proof.
  split; [reflexivity |]. split; [| split; [| split]].
  - apply real_distance_of_square; [discriminate | reflexivity].
  - reflexivity.
  - intros Heq. vm_compute in Heq. discriminate.
  - reflexivity.
Qed.

Lemma axis_coord_policy_witness :
  (extractSingleTouch (touchEvent 12 34 0) = Some {[ "pageX" := 12; "pageY" := 34 ]} /\
   getAxisCoordOfEvent (scrolled 100 200) Axis.x (touchEvent 12 34 0) = Num 12 /\
   getAxisCoordOfEvent (scrolled 100 200) Axis.y (touchEvent 12 34 0) = Num 34) /\
  (extractSingleTouch (mouseEvent 12 34 0) = None /\
   props (mouseEvent 12 34 0) !! page Axis.y = Some 34 /\
   getAxisCoordOfEvent (scrolled 100 200) Axis.y (mouseEvent 12 34 0) = Num 34) /\
  (extractSingleTouch (clientEvent 12 34 0) = None /\
   props (clientEvent 12 34 0) !! page Axis.y = None /\
   props (clientEvent 12 34 0) !! client Axis.y = Some 34 /\
   scrolled 100 200 !! envScroll Axis.y = Some 200 /\
   getAxisCoordOfEvent (scrolled 100 200) Axis.y (clientEvent 12 34 0) = Num (34 + 200)).
Proof.
  split; [| split].
  - split; [reflexivity |]. split.
    + destruct (@axis_coord_policy browserTouch
                  (scrolled 100 200) Axis.x (touchEvent 12 34 0)) as (Htouch & _).
      exact (Htouch _ eq_refl).
    + destruct (@axis_coord_policy browserTouch
                  (scrolled 100 200) Axis.y (touchEvent 12 34 0)) as (Htouch & _).
      exact (Htouch _ eq_refl).
  - split; [reflexivity |]. split; [reflexivity |].
    destruct (@axis_coord_policy browserTouch
                (scrolled 100 200) Axis.y (mouseEvent 12 34 0)) as (_ & Hpage & _).
    exact (Hpage 34 eq_refl eq_refl).
  - split; [reflexivity |]. split; [reflexivity |]. split; [reflexivity |].
    split; [reflexivity |].
    destruct (@axis_coord_policy browserTouch
                (scrolled 100 200) Axis.y (clientEvent 12 34 0))
      as (_ & _ & _ & Hclient & _).
    exact (Hclient 34 200 eq_refl eq_refl eq_refl eq_refl).
Defined.

Lemma dependencies_by_touch_capability_witness :
  useTouchEvents = true /\
  (isTouchDevice {[ "ontouchstart" ]} = true /\
   dependencies {[ "ontouchstart" ]} = Some touchDependencies /\
   dependencies_of (eventTypes {[ "ontouchstart" ]} touchTapEnd) =
     dependencies {[ "ontouchstart" ]}) /\
  (isTouchDevice ∅ = false /\ dependencies ∅ = Some mouseDependencies).
Proof.
  split; [reflexivity |]. split.
  - destruct (@dependencies_by_touch_capability touchBrowser {[ "ontouchstart" ]} eq_refl)
      as (Htouch & _ & Hcarried).
    split; [reflexivity |]. split; [exact (Htouch eq_refl) | exact (Hcarried touchTapEnd)].
  - destruct (@dependencies_by_touch_capability touchBrowser ∅ eq_refl)
      as (_ & Hmouse & _).
    split; [reflexivity | exact (Hmouse eq_refl)].
Defined.

(** C8 as stated fails.  With touch events switched off in the host, the
    dependency list is still [undefined], on a touch-capable window as on any
    other, and that is what the three event types carry. *)
Lemma dependencies_undefined_without_touch_events :
  @useTouchEvents (browserUtils false) = false /\
  isTouchDevice {[ "ontouchstart" ]} = true /\
  dependencies_of (@eventTypes (browserUtils false) {[ "ontouchstart" ]} touchTap) = None /\
  dependencies_of (@eventTypes (browserUtils false) ∅ touchTap) = None /\
  ~ (dependencies_of (@eventTypes (browserUtils false) {[ "ontouchstart" ]} touchTap) =
       Some touchDependencies \/
     dependencies_of (@eventTypes (browserUtils false) {[ "ontouchstart" ]} touchTap) =
       Some mouseDependencies).
Proof.
  repeat apply conj; try reflexivity.
  intros [Heq | Heq]; discriminate Heq.
Qed.

Lemma zero_origin_never_aborts_witness :
  isStartish topMouseDown = true /\
  ignored (lastStartTouchEvent initial) (mouseEvent 0 50 1000) = false /\
  getAxisCoordOfEvent ∅ Axis.x (mouseEvent 0 50 1000) = Num 0 /\
  Forall is_move [mkCall ∅ topMouseMove "root" (mouseEvent 500 500 1050);
                  mkCall ∅ topTouchMove "root" (touchEvent 1000 50 1100);
                  mkCall ∅ (topOther "topScroll") "root" (mouseEvent 700 700 1200)] /\
  dispatch [mkCall ∅ topMouseDown "root" (mouseEvent 0 50 1000);
            mkCall ∅ topMouseMove "root" (mouseEvent 500 500 1050);
            mkCall ∅ topTouchMove "root" (touchEvent 1000 50 1100);
            mkCall ∅ (topOther "topScroll") "root" (mouseEvent 700 700 1200)] initial =
    ([Single (tapStartEvent "root" (mouseEvent 0 50 1000)); Null; Null; Null],
     armed_by ∅ (mouseEvent 0 50 1000) initial).
Proof.
  assert (Hmoves : Forall is_move
                     [mkCall ∅ topMouseMove "root" (mouseEvent 500 500 1050);
                      mkCall ∅ topTouchMove "root" (touchEvent 1000 50 1100);
                      mkCall ∅ (topOther "topScroll") "root" (mouseEvent 700 700 1200)]).
  { repeat constructor. }
  split; [reflexivity |]. split; [reflexivity |]. split; [reflexivity |].
  split; [exact Hmoves |].
  destruct (@zero_origin_never_aborts touchBrowser browserTouch) as (_ & _ & _ & Hgesture).
  exact (Hgesture ∅ topMouseDown "root" (mouseEvent 0 50 1000) initial _
           eq_refl eq_refl (or_introl eq_refl) Hmoves).
Defined.

Lemma stray_end_event_witness :
  isStartish topMouseUp = false /\ isEndish topMouseUp = true /\
  ignored (lastEndTouchEvent initial) (mouseEvent 3 4 100) = false /\
  distance_lt (getDistance ∅ cleared (mouseEvent 3 4 100)) tapMoveThreshold /\
  getTime (mouseEvent 3 4 100) <= tapTimeThreshold /\
  fst (extractEvents ∅ topMouseUp "root" (mouseEvent 3 4 100) initial) =
    Array [tapEndEvent "root" (mouseEvent 3 4 100); tapEvent "root" (mouseEvent 3 4 100)] /\
  (isStartish topMouseMove = false /\ isEndish topMouseMove = false /\
   fst (extractEvents ∅ topMouseMove "root" (mouseEvent 50 50 10050)
          (armed_by ∅ (mouseEvent 5 5 10000) initial)) <> Null /\
   exists rest,
     fst (extractEvents ∅ topMouseUp "root" (mouseEvent 60 60 10100)
            (snd (extractEvents ∅ topMouseMove "root" (mouseEvent 50 50 10050)
                    (armed_by ∅ (mouseEvent 5 5 10000) initial)))) =
       Array (tapEndEvent "root" (mouseEvent 60 60 10100) :: rest) /\
     (rest = [] \/ rest = [tapEvent "root" (mouseEvent 60 60 10100)]) /\
     (rest = [tapEvent "root" (mouseEvent 60 60 10100)] ->
        distance_lt (getDistance ∅ cleared (mouseEvent 60 60 10100)) tapMoveThreshold)).
Proof.
  destruct (@stray_end_event touchBrowser browserTouch)
    as (_ & _ & _ & _ & Hafter_abort & Hstray).
  assert (Hlt : distance_lt (getDistance ∅ cleared (mouseEvent 3 4 100)) tapMoveThreshold).
  { apply distance_ltb_spec. vm_compute. reflexivity. }
  assert (Hd : getTime (mouseEvent 3 4 100) <= tapTimeThreshold) by discriminate.
  assert (Habort : fst (extractEvents ∅ topMouseMove "root" (mouseEvent 50 50 10050)
                          (armed_by ∅ (mouseEvent 5 5 10000) initial)) <> Null).
  { vm_compute. discriminate. }
  split; [reflexivity |]. split; [reflexivity |]. split; [reflexivity |].
  split; [exact Hlt |]. split; [exact Hd |]. split.
  - exact (Hstray ∅ topMouseUp "root" (mouseEvent 3 4 100) initial
             eq_refl eq_refl eq_refl eq_refl eq_refl eq_refl Hlt Hd).
  - split; [reflexivity |]. split; [reflexivity |]. split; [exact Habort |].
    exact (Hafter_abort ∅ topMouseMove "root" (mouseEvent 50 50 10050)
             (armed_by ∅ (mouseEvent 5 5 10000) initial)
             ∅ topMouseUp "root" (mouseEvent 60 60 10100)
             eq_refl eq_refl Habort eq_refl eq_refl eq_refl).
Defined.

(** C10 as stated fails.  After a mouse-down at (5, 5), t=10000 and a
    move-abort at (50, 50), t=10050, a mouse-up at (3, 4), t=10100 returns a
    tap-end and a tap: the duration is taken from the start time 10000 that
    the aborted gesture recorded.  Decided against the start time 0, the
    duration 10100 would exceed 2000 and no tap would be returned. *)
Lemma end_after_move_abort_uses_start_time :
  fst (dispatch [mkCall ∅ topMouseDown "root" (mouseEvent 5 5 10000);
                 mkCall ∅ topMouseMove "root" (mouseEvent 50 50 10050);
                 mkCall ∅ topMouseUp "root" (mouseEvent 3 4 10100)] initial) =
    [Single (tapStartEvent "root" (mouseEvent 5 5 10000));
     Single (tapEndEvent "root" (mouseEvent 50 50 10050));
     Array [tapEndEvent "root" (mouseEvent 3 4 10100);
            tapEvent "root" (mouseEvent 3 4 10100)]] /\
  end_events_from_cleared ∅ "root" (mouseEvent 3 4 10100) =
    [tapEndEvent "root" (mouseEvent 3 4 10100)] /\
  ~ (fst (dispatch [mkCall ∅ topMouseDown "root" (mouseEvent 5 5 10000);
                    mkCall ∅ topMouseMove "root" (mouseEvent 50 50 10050);
                    mkCall ∅ topMouseUp "root" (mouseEvent 3 4 10100)] initial) =
     [Single (tapStartEvent "root" (mouseEvent 5 5 10000));
      Single (tapEndEvent "root" (mouseEvent 50 50 10050));
      Array (end_events_from_cleared ∅ "root" (mouseEvent 3 4 10100))]).
Proof.
  repeat apply conj; try reflexivity.
  intros Heq. vm_compute in Heq. discriminate.
Qed.

Lemma moves_abort_at_most_once_witness :
  Forall is_move [mkCall ∅ topMouseMove "root" (mouseEvent 6 6 1010);
                  mkCall ∅ topMouseMove "root" (mouseEvent 50 50 1020);
                  mkCall ∅ topMouseMove "root" (mouseEvent 80 80 1030)] /\
  (dispatch [mkCall ∅ topMouseMove "root" (mouseEvent 6 6 1010);
             mkCall ∅ topMouseMove "root" (mouseEvent 50 50 1020);
             mkCall ∅ topMouseMove "root" (mouseEvent 80 80 1030)]
            (armed_by ∅ (mouseEvent 5 5 1000) initial) =
     (nothing 3, armed_by ∅ (mouseEvent 5 5 1000) initial) \/
   exists before c after,
     [mkCall ∅ topMouseMove "root" (mouseEvent 6 6 1010);
      mkCall ∅ topMouseMove "root" (mouseEvent 50 50 1020);
      mkCall ∅ topMouseMove "root" (mouseEvent 80 80 1030)] = before ++ c :: after /\
     dispatch [mkCall ∅ topMouseMove "root" (mouseEvent 6 6 1010);
               mkCall ∅ topMouseMove "root" (mouseEvent 50 50 1020);
               mkCall ∅ topMouseMove "root" (mouseEvent 80 80 1030)]
              (armed_by ∅ (mouseEvent 5 5 1000) initial) =
       (nothing (length before) ++
          Single (tapEndEvent (targetID c) (native c)) :: nothing (length after),
        set_startCoords cleared (armed_by ∅ (mouseEvent 5 5 1000) initial))).
Proof.
  assert (Hmoves : Forall is_move
                     [mkCall ∅ topMouseMove "root" (mouseEvent 6 6 1010);
                      mkCall ∅ topMouseMove "root" (mouseEvent 50 50 1020);
                      mkCall ∅ topMouseMove "root" (mouseEvent 80 80 1030)]).
  { repeat constructor. }
  split; [exact Hmoves |].
  exact (@moves_abort_at_most_once touchBrowser browserTouch _
           (armed_by ∅ (mouseEvent 5 5 1000) initial) Hmoves).
Defined.

Lemma redelivery_ignored_witness :
  (isStartish topTouchStart = true \/ isEndish topTouchStart = true) /\
  timeStamp (touchEvent 5 5 1000) <> 0 /\
  extractEvents ∅ topTouchStart "root" (touchEvent 5 5 1000)
      (snd (extractEvents ∅ topTouchStart "root" (touchEvent 5 5 1000) initial)) =
    (Null, snd (extractEvents ∅ topTouchStart "root" (touchEvent 5 5 1000) initial)).
Proof.
  assert (Hts : timeStamp (touchEvent 5 5 1000) <> 0) by discriminate.
  split; [left; reflexivity |]. split; [exact Hts |].
  exact (@redelivery_ignored touchBrowser browserTouch
           ∅ topTouchStart "root" (touchEvent 5 5 1000) initial
           (or_introl eq_refl) Hts).
Defined.

Lemma press_and_release_in_place_witness :
  getTime (mouseEvent 7 9 3000) - getTime (mouseEvent 7 9 1000) = tapTimeThreshold /\
  fst (dispatch [mkCall ∅ topMouseDown "root" (mouseEvent 7 9 1000);
                 mkCall ∅ topMouseUp "root" (mouseEvent 7 9 3000)] initial) =
    [Single (tapStartEvent "root" (mouseEvent 7 9 1000));
     Array [tapEndEvent "root" (mouseEvent 7 9 3000);
            tapEvent "root" (mouseEvent 7 9 3000)]] /\
  fst (dispatch [mkCall ∅ topMouseDown "root" (mouseEvent 7 9 1000);
                 mkCall ∅ topMouseUp "root" (mouseEvent 7 9 3001)] initial) =
    [Single (tapStartEvent "root" (mouseEvent 7 9 1000));
     Array [tapEndEvent "root" (mouseEvent 7 9 3001)]].
Proof.
  split; [reflexivity |]. split.
  - exact (@press_and_release_in_place touchBrowser browserTouch initial
             ∅ topMouseDown "root" (mouseEvent 7 9 1000)
             ∅ topMouseUp "root" (mouseEvent 7 9 3000) 7 9
             eq_refl eq_refl eq_refl eq_refl eq_refl eq_refl eq_refl eq_refl eq_refl).
  - exact (@press_and_release_in_place touchBrowser browserTouch initial
             ∅ topMouseDown "root" (mouseEvent 7 9 1000)
             ∅ topMouseUp "root" (mouseEvent 7 9 3001) 7 9
             eq_refl eq_refl eq_refl eq_refl eq_refl eq_refl eq_refl eq_refl eq_refl).
Defined.

Lemma missing_coordinate_never_taps_witness :
  (getAxisCoordOfEvent ∅ Axis.x (bareEvent 1050) = NaN \/
   getAxisCoordOfEvent ∅ Axis.y (bareEvent 1050) = NaN) /\
  extractEvents ∅ topTouchMove "root" (bareEvent 1050)
      (armed_by ∅ (touchEvent 5 5 1000) initial) =
    (Null, armed_by ∅ (touchEvent 5 5 1000) initial) /\
  fst (extractEvents ∅ topTouchEnd "root" (bareEvent 1050)
         (armed_by ∅ (touchEvent 5 5 1000) initial)) =
    Array [tapEndEvent "root" (bareEvent 1050)] /\
  fst (extractEvents ∅ topMouseUp "root" (mouseEvent 5 5 1100)
         (snd (extractEvents ∅ topTouchStart "root" (bareEvent 1050) initial))) =
    Array [tapEndEvent "root" (mouseEvent 5 5 1100)] /\
  Forall is_move [mkCall ∅ topMouseMove "root" (mouseEvent 500 500 1060);
                  mkCall ∅ topTouchMove "root" (touchEvent 3 4 1070)] /\
  dispatch [mkCall ∅ topMouseMove "root" (mouseEvent 500 500 1060);
            mkCall ∅ topTouchMove "root" (touchEvent 3 4 1070)]
      (snd (extractEvents ∅ topTouchStart "root" (bareEvent 1050) initial)) =
    (nothing 2, snd (extractEvents ∅ topTouchStart "root" (bareEvent 1050) initial)) /\
  fst (extractEvents ∅ topMouseUp "root" (mouseEvent 3 4 1100)
         (snd (dispatch [mkCall ∅ topMouseMove "root" (mouseEvent 500 500 1060);
                         mkCall ∅ topTouchMove "root" (touchEvent 3 4 1070)]
                 (snd (extractEvents ∅ topTouchStart "root" (bareEvent 1050)
                         initial))))) =
    Array [tapEndEvent "root" (mouseEvent 3 4 1100)].
Proof.
  assert (Hnan : getAxisCoordOfEvent ∅ Axis.x (bareEvent 1050) = NaN \/
                 getAxisCoordOfEvent ∅ Axis.y (bareEvent 1050) = NaN).
  { left. reflexivity. }
  assert (Hmoves : Forall is_move
                     [mkCall ∅ topMouseMove "root" (mouseEvent 500 500 1060);
                      mkCall ∅ topTouchMove "root" (touchEvent 3 4 1070)]).
  { repeat constructor. }
  split; [exact Hnan |]. split; [| split; [| split]].
  - destruct (@missing_coordinate_never_taps touchBrowser browserTouch
                ∅ topTouchMove "root" (bareEvent 1050)
                (armed_by ∅ (touchEvent 5 5 1000) initial) Hnan) as (Hmove & _).
    exact (Hmove eq_refl eq_refl).
  - destruct (@missing_coordinate_never_taps touchBrowser browserTouch
                ∅ topTouchEnd "root" (bareEvent 1050)
                (armed_by ∅ (touchEvent 5 5 1000) initial) Hnan) as (_ & Hend & _).
    exact (Hend eq_refl eq_refl eq_refl).
  - destruct (@missing_coordinate_never_taps touchBrowser browserTouch
                ∅ topTouchStart "root" (bareEvent 1050) initial Hnan)
      as (_ & _ & Hstart & _).
    destruct (Hstart eq_refl eq_refl ∅ topMouseUp "root" (mouseEvent 5 5 1100) eq_refl)
      as (_ & Hend).
    exact (Hend eq_refl eq_refl).
  - destruct (@missing_coordinate_never_taps touchBrowser browserTouch
                ∅ topTouchStart "root" (bareEvent 1050) initial Hnan)
      as (_ & _ & _ & Hrun).
    destruct (Hrun eq_refl eq_refl _ ∅ topMouseUp "root" (mouseEvent 3 4 1100) Hmoves)
      as (Hquiet & Hend).
    split; [exact Hmoves |]. split; [exact Hquiet |].
    exact (Hend eq_refl eq_refl eq_refl).
Defined.

Lemma scroll_counts_as_movement_witness :
  getDistance (scrolled 0 30)
    (startCoords (snd (extractEvents (scrolled 0 0) topMouseDown "root"
                         (clientEvent 100 200 1000) initial)))
    (clientEvent 100 200 1100) =
    Sqrt (Num ((0 - 0) * (0 - 0) + (30 - 0) * (30 - 0))) /\
  fst (extractEvents (scrolled 0 30) topMouseUp "root" (clientEvent 100 200 1100)
         (snd (extractEvents (scrolled 0 0) topMouseDown "root"
                 (clientEvent 100 200 1000) initial))) =
    Array [tapEndEvent "root" (clientEvent 100 200 1100)].
Proof.
  exact (@scroll_counts_as_movement touchBrowser browserTouch initial
           (scrolled 0 0) topMouseDown "root" (clientEvent 100 200 1000)
           (scrolled 0 30) topMouseUp "root" (clientEvent 100 200 1100)
           100 200 0 0 0 30
           eq_refl eq_refl eq_refl eq_refl eq_refl eq_refl eq_refl
           eq_refl eq_refl eq_refl eq_refl eq_refl eq_refl eq_refl eq_refl
           eq_refl eq_refl eq_refl eq_refl).
Defined.

Lemma viewport_irrelevant_with_page_position_witness :
  (is_Some (extractSingleTouch (mouseEvent 50 50 1050)) \/
   (is_Some (props (mouseEvent 50 50 1050) !! "pageX") /\
    is_Some (props (mouseEvent 50 50 1050) !! "pageY"))) /\
  extractEvents ∅ topMouseMove "root" (mouseEvent 50 50 1050)
      (armed_by ∅ (mouseEvent 5 5 1000) initial) =
    extractEvents (scrolled 300 400) topMouseMove "root" (mouseEvent 50 50 1050)
      (armed_by ∅ (mouseEvent 5 5 1000) initial).
Proof.
  assert (Hpage : is_Some (extractSingleTouch (mouseEvent 50 50 1050)) \/
                  (is_Some (props (mouseEvent 50 50 1050) !! "pageX") /\
                   is_Some (props (mouseEvent 50 50 1050) !! "pageY"))).
  { right. split; eexists; reflexivity. }
  split; [exact Hpage |].
  exact (@viewport_irrelevant_with_page_position touchBrowser browserTouch
           ∅ (scrolled 300 400) topMouseMove "root" (mouseEvent 50 50 1050)
           (armed_by ∅ (mouseEvent 5 5 1000) initial) Hpage).
Defined.

Lemma abort_iff_no_tap_witness :
  getTime (mouseEvent 15 5 1050) - start (Time (armed_by ∅ (mouseEvent 5 5 1000) initial))
    <= tapTimeThreshold /\
  (fst (extractEvents ∅ topMouseMove "root" (mouseEvent 15 5 1050)
          (armed_by ∅ (mouseEvent 5 5 1000) initial)) =
     Single (tapEndEvent "root" (mouseEvent 15 5 1050)) <->
   fst (extractEvents ∅ topMouseUp "root" (mouseEvent 15 5 1050)
          (armed_by ∅ (mouseEvent 5 5 1000) initial)) =
     Array [tapEndEvent "root" (mouseEvent 15 5 1050)]).
Proof.
  assert (Hd : getTime (mouseEvent 15 5 1050)
               - start (Time (armed_by ∅ (mouseEvent 5 5 1000) initial))
               <= tapTimeThreshold) by discriminate.
  split; [exact Hd |].
  exact (@abort_iff_no_tap touchBrowser browserTouch
           ∅ topMouseMove topMouseUp "root" (mouseEvent 15 5 1050)
           (armed_by ∅ (mouseEvent 5 5 1000) initial) 15 5
           eq_refl eq_refl eq_refl eq_refl eq_refl eq_refl eq_refl eq_refl Hd).
Defined.

Lemma accepted_starts_are_spaced_witness :
  timeStamp (touchEvent 5 5 1000) <> 0 /\
  Forall (fun c => isStartish (kind c) = false)
    [mkCall ∅ topTouchMove "root" (touchEvent 6 6 1050);
     mkCall ∅ topTouchEnd "root" (bareEvent 1100)] /\
  (fst (extractEvents ∅ topMouseDown "root" (mouseEvent 5 5 1200)
          (snd (dispatch [mkCall ∅ topTouchMove "root" (touchEvent 6 6 1050);
                          mkCall ∅ topTouchEnd "root" (bareEvent 1100)]
                  (snd (extractEvents ∅ topTouchStart "root" (touchEvent 5 5 1000)
                          initial))))) <> Null <->
   ignoreMouseThreshold <= timeStamp (mouseEvent 5 5 1200) - timeStamp (touchEvent 5 5 1000)).
Proof.
  assert (Hts : timeStamp (touchEvent 5 5 1000) <> 0) by discriminate.
  assert (Hcalls : Forall (fun c => isStartish (kind c) = false)
                     [mkCall ∅ topTouchMove "root" (touchEvent 6 6 1050);
                      mkCall ∅ topTouchEnd "root" (bareEvent 1100)]).
  { repeat constructor. }
  split; [exact Hts |]. split; [exact Hcalls |].
  exact (@accepted_starts_are_spaced touchBrowser browserTouch
           ∅ topTouchStart "root" (touchEvent 5 5 1000) initial _
           ∅ topMouseDown "root" (mouseEvent 5 5 1200)
           eq_refl eq_refl Hts Hcalls eq_refl).
Defined.

Lemma quiet_moves_invisible_witness :
  Forall is_move [mkCall ∅ topMouseMove "root" (mouseEvent 6 6 1010);
                  mkCall ∅ topMouseMove "root" (mouseEvent 7 7 1020)] /\
  fst (dispatch [mkCall ∅ topMouseMove "root" (mouseEvent 6 6 1010);
                 mkCall ∅ topMouseMove "root" (mouseEvent 7 7 1020)]
         (armed_by ∅ (mouseEvent 5 5 1000) initial)) = nothing 2 /\
  dispatch ([mkCall ∅ topMouseMove "root" (mouseEvent 6 6 1010);
             mkCall ∅ topMouseMove "root" (mouseEvent 7 7 1020)] ++
            [mkCall ∅ topMouseUp "root" (mouseEvent 6 6 1030)])
      (armed_by ∅ (mouseEvent 5 5 1000) initial) =
    (nothing 2 ++
       fst (dispatch [mkCall ∅ topMouseUp "root" (mouseEvent 6 6 1030)]
              (armed_by ∅ (mouseEvent 5 5 1000) initial)),
     snd (dispatch [mkCall ∅ topMouseUp "root" (mouseEvent 6 6 1030)]
            (armed_by ∅ (mouseEvent 5 5 1000) initial))).
Proof.
  assert (Hmoves : Forall is_move
                     [mkCall ∅ topMouseMove "root" (mouseEvent 6 6 1010);
                      mkCall ∅ topMouseMove "root" (mouseEvent 7 7 1020)]).
  { repeat constructor. }
  assert (Hquiet : fst (dispatch [mkCall ∅ topMouseMove "root" (mouseEvent 6 6 1010);
                                  mkCall ∅ topMouseMove "root" (mouseEvent 7 7 1020)]
                          (armed_by ∅ (mouseEvent 5 5 1000) initial)) = nothing 2).
  { reflexivity. }
  split; [exact Hmoves |]. split; [exact Hquiet |].
  exact (@quiet_moves_invisible touchBrowser browserTouch _
           [mkCall ∅ topMouseUp "root" (mouseEvent 6 6 1030)]
           (armed_by ∅ (mouseEvent 5 5 1000) initial) Hmoves Hquiet).
Defined.

Lemma quick_second_tap_swallowed_witness :
  timeStamp (mouseEvent 5 5 1000) <> 0 /\
  timeStamp (mouseEvent 5 5 1100) <> 0 /\
  timeStamp (mouseEvent 5 5 1200) - timeStamp (mouseEvent 5 5 1000) < ignoreMouseThreshold /\
  timeStamp (mouseEvent 5 5 1300) - timeStamp (mouseEvent 5 5 1100) < ignoreMouseThreshold /\
  dispatch [mkCall ∅ topMouseDown "root" (mouseEvent 5 5 1200);
            mkCall ∅ topMouseUp "root" (mouseEvent 5 5 1300)]
      (snd (dispatch [mkCall ∅ topMouseDown "root" (mouseEvent 5 5 1000);
                      mkCall ∅ topMouseUp "root" (mouseEvent 5 5 1100)] initial)) =
    ([Null; Null],
     snd (dispatch [mkCall ∅ topMouseDown "root" (mouseEvent 5 5 1000);
                    mkCall ∅ topMouseUp "root" (mouseEvent 5 5 1100)] initial)).
Proof.
  assert (H1 : timeStamp (mouseEvent 5 5 1000) <> 0) by discriminate.
  assert (H2 : timeStamp (mouseEvent 5 5 1100) <> 0) by discriminate.
  assert (L3 : timeStamp (mouseEvent 5 5 1200) - timeStamp (mouseEvent 5 5 1000)
               < ignoreMouseThreshold) by reflexivity.
  assert (L4 : timeStamp (mouseEvent 5 5 1300) - timeStamp (mouseEvent 5 5 1100)
               < ignoreMouseThreshold) by reflexivity.
  split; [exact H1 |]. split; [exact H2 |]. split; [exact L3 |]. split; [exact L4 |].
  exact (@quick_second_tap_swallowed touchBrowser browserTouch initial
           (mkCall ∅ topMouseDown "root" (mouseEvent 5 5 1000))
           (mkCall ∅ topMouseUp "root" (mouseEvent 5 5 1100))
           (mkCall ∅ topMouseDown "root" (mouseEvent 5 5 1200))
           (mkCall ∅ topMouseUp "root" (mouseEvent 5 5 1300))
           eq_refl eq_refl H1 eq_refl eq_refl eq_refl H2 eq_refl L3 eq_refl eq_refl L4).
Defined.
